(** * AkademikAI: the RAG pipeline, the /ask endpoint and the document loader

    A shallow embedding of
      - [src/core/rag_pipeline.py]   (class [RAGPipeline]),
      - [src/api/endpoints.py]       (handler [ask]),
      - [src/api/models.py]          (request and response schemas),
      - [src/data_processing/loader.py] ([load_and_prepare_documents]),
    followed by the properties of the specification that concern them.

    Python strings are modelled as [string] (their UTF-8 bytes), Python
    dictionaries whose printed form matters as association lists in insertion
    order, the metadata of a retrieved document as a finite map, and the
    [set()] of [_format_sources] as a finite set.  Calls to the external
    services (vector store, language model, file system) are explicit
    state-passing functions that also record an event trace. *)

From Stdlib Require Import ZArith Ascii String.
From stdpp Require Import base decidable option list sorting strings pretty gmap.

Local Open Scope Z_scope.
Set Warnings "-register-all".

(** ** Python values *)

(** The values that occur in this program: what [json.loads] can return, and
    the dictionaries that flow through the LCEL chain.  A [float] is kept as
    its [repr], which identifies it; dictionary keys are strings. *)
Inductive pyval : Type :=
  | PyNone
  | PyBool (b : bool)
  | PyInt (z : Z)
  | PyFloat (repr : string)
  | PyStr (s : string)
  | PyList (items : list pyval)
  | PyDict (items : list (string * pyval)).

(** [type(v).__name__] *)
Definition py_type_name (v : pyval) : string :=
  match v with
  | PyNone => "NoneType"
  | PyBool _ => "bool"
  | PyInt _ => "int"
  | PyFloat _ => "float"
  | PyStr _ => "str"
  | PyList _ => "list"
  | PyDict _ => "dict"
  end.

Definition chr (n : nat) : string := String (ascii_of_nat n) EmptyString.

Definition NL : string := chr 10.
Definition DQUOTE : string := chr 34.
Definition BACKSLASH : string := chr 92.

Definition hex_digit (n : nat) : string :=
  match n with
  | 0%nat => "0" | 1%nat => "1" | 2%nat => "2" | 3%nat => "3"
  | 4%nat => "4" | 5%nat => "5" | 6%nat => "6" | 7%nat => "7"
  | 8%nat => "8" | 9%nat => "9" | 10%nat => "a" | 11%nat => "b"
  | 12%nat => "c" | 13%nat => "d" | 14%nat => "e" | _ => "f"
  end.

Fixpoint str_contains (c : nat) (s : string) : bool :=
  match s with
  | EmptyString => false
  | String a rest => Nat.eqb (nat_of_ascii a) c || str_contains c rest
  end.

(** The quote character [repr] of a [str] picks: a single quote, unless the
    string holds a single quote and no double quote. *)
Definition repr_quote (s : string) : nat :=
  if str_contains 39 s && negb (str_contains 34 s) then 34%nat else 39%nat.

(** One character of [repr(str)].  Bytes from 128 up belong to a non-ASCII
    code point and are copied, which is what CPython does for every printable
    code point; a code point above 127 that is not printable (a no-break
    space, say), which CPython writes as an escape, is not covered. *)
Definition repr_char (quote : nat) (a : ascii) : string :=
  let n := nat_of_ascii a in
  if Nat.eqb n quote || Nat.eqb n 92 then BACKSLASH +:+ String a EmptyString
  else if Nat.eqb n 9 then BACKSLASH +:+ "t"
  else if Nat.eqb n 10 then BACKSLASH +:+ "n"
  else if Nat.eqb n 13 then BACKSLASH +:+ "r"
  else if Nat.ltb n 32 || Nat.eqb n 127
       then BACKSLASH +:+ "x" +:+ hex_digit (n / 16) +:+ hex_digit (n mod 16)
  else String a EmptyString.

Fixpoint repr_chars (quote : nat) (s : string) : string :=
  match s with
  | EmptyString => EmptyString
  | String a rest => repr_char quote a +:+ repr_chars quote rest
  end.

Definition py_repr_str (s : string) : string :=
  let q := repr_quote s in chr q +:+ repr_chars q s +:+ chr q.

Fixpoint join (sep : string) (parts : list string) : string :=
  match parts with
  | [] => EmptyString
  | [p] => p
  | p :: rest => p +:+ sep +:+ join sep rest
  end.

(** [repr(v)] *)
Fixpoint py_repr (v : pyval) : string :=
  match v with
  | PyNone => "None"
  | PyBool true => "True"
  | PyBool false => "False"
  | PyInt z => pretty z
  | PyFloat r => r
  | PyStr s => py_repr_str s
  | PyList items => "[" +:+ join ", " (map py_repr items) +:+ "]"
  | PyDict items =>
      "{" +:+ join ", " (map (fun kv => py_repr_str (fst kv) +:+ ": " +:+ py_repr (snd kv)) items)
          +:+ "}"
  end.

(** [str(v)], which is also what an f-string and [str.format] insert for a
    field without a format spec. *)
Definition py_str (v : pyval) : string :=
  match v with
  | PyStr s => s
  | _ => py_repr v
  end.

(** [d.get(key)] on a dictionary held in insertion order. *)
Fixpoint dict_get {V : Type} (key : string) (items : list (string * V)) : option V :=
  match items with
  | [] => None
  | (k, v) :: rest => if String.eqb k key then Some v else dict_get key rest
  end.

(** ** Exceptions and effects *)

(** The exception classes this program raises or catches by name; every one
    derives from [Exception].  [exc_str] is [str(e)]. *)
Inductive exc_class : Type :=
  | FileNotFoundError
  | JSONDecodeError
  | TypeError
  | KeyError
  | AttributeError
  | OtherException (name : string).

Record py_exception : Type := Exc { exc_type : exc_class; exc_str : string }.

Inductive outcome (A : Type) : Type :=
  | Return (a : A)
  | Raise (e : py_exception).
Arguments Return {A} a.
Arguments Raise {A} e.

(** A computation over a state [S] that returns or raises. *)
Definition M (S A : Type) : Type := S -> outcome A * S.

Definition ret {S A : Type} (a : A) : M S A := fun s => (Return a, s).

Definition raise {S A : Type} (e : py_exception) : M S A := fun s => (Raise e, s).

Definition bind {S A B : Type} (m : M S A) (k : A -> M S B) : M S B :=
  fun s =>
    match m s with
    | (Return a, s') => k a s'
    | (Raise e, s') => (Raise e, s')
    end.

Notation "x <- m ;; k" := (bind m (fun x => k))
  (at level 100, m at next level, right associativity).

(** ** src/api/models.py *)

Module models.

(** [Literal["Polish", "English"]] *)
Inductive Language : Type := Polish | English.

Definition Language_value (l : Language) : string :=
  match l with Polish => "Polish" | English => "English" end.

Record AskRequest : Type := { question : string; language : Language }.

Record Source : Type := { url : string; title : string }.

Record AskResponse : Type := { answer : string; sources : list Source }.

End models.

(** ** src/core/rag_pipeline.py *)

Definition RAG_PROMPT_TEMPLATE : string :=
  NL +:+
  "As a helpful informational assistant, your task is to answer the user's question" +:+ NL +:+
  "based exclusively on the provided context. Be concise and factual." +:+ NL +:+
  NL +:+
  "If the context does not contain the answer, you must reply with:" +:+ NL +:+
  DQUOTE +:+ "Unfortunately, I could not find information on this topic in my knowledge base."
         +:+ DQUOTE +:+ NL +:+
  NL +:+
  "Your final answer must be in the following language: {language}" +:+ NL +:+
  NL +:+
  "Context:" +:+ NL +:+
  "{context}" +:+ NL +:+
  NL +:+
  "Question:" +:+ NL +:+
  "{question}" +:+ NL.

(** [langchain_core.documents.Document]; the metadata of a retrieved passage
    maps strings to strings, as [_format_sources] declares of what it reads
    ([List[Dict[str, str]]]) and [models.Source] requires. *)
Record Document : Type := { page_content : string; metadata : gmap string string }.

(** The dictionaries [_format_sources] and [answer] build. *)
Record SourceDict : Type := { url : string; title : string }.

Record AnswerDict : Type := { answer : string; sources : list SourceDict }.

(** What the pipeline asked of the external services, in order, with what
    each call gave back. *)
Inductive event : Type :=
  | RetrieverInvoke (query : string) (k : nat) (result : outcome (list Document))
  | LlmInvoke (prompt : string) (result : outcome string).

(** *** The pieces of LCEL the chain is made of *)

Definition Runnable (S A B : Type) : Type := A -> M S B.

(** [first | second] *)
Definition pipe {S A B C : Type} (first : Runnable S A B) (second : Runnable S B C)
  : Runnable S A C :=
  fun input => x <- first input ;; second x.

Infix "|>" := pipe (at level 40, left associativity).

(** [RunnablePassthrough()] hands its input on unchanged. *)
Definition RunnablePassthrough {S A : Type} : Runnable S A A := ret.

(** A plain function coerced to a runnable. *)
Definition RunnableLambda {S A B : Type} (f : A -> B) : Runnable S A B :=
  fun input => ret (f input).

(** [operator.itemgetter(key)] coerced to a runnable; [str(KeyError(key))] is
    the [repr] of the key. *)
Definition itemgetter {S V : Type} (key : string) : Runnable S (list (string * V)) V :=
  fun input =>
    match dict_get key input with
    | Some v => ret v
    | None => raise (Exc KeyError (py_repr_str key))
    end.

(** [RunnableParallel(k1=step1, ...)] gives every step the same input and
    collects the outputs under the steps' keys.  (LangChain runs the steps on
    a thread pool; in this program only the [context] step has an effect.) *)
Fixpoint RunnableParallel {S A : Type} (steps : list (string * Runnable S A pyval))
  : Runnable S A (list (string * pyval)) :=
  fun input =>
    match steps with
    | [] => ret []
    | (key, step) :: rest =>
        v <- step input ;;
        vs <- RunnableParallel rest input ;;
        ret ((key, v) :: vs)
    end.

(** The dictionary [{"question": str, "language": str}] as a Python value. *)
Definition py_of_dict (d : list (string * string)) : pyval :=
  PyDict (map (fun kv => (fst kv, PyStr (snd kv))) d).

(** *** The prompt template *)

Inductive fragment : Type :=
  | Lit (text : string)
  | Field (name : string).

Definition snoc_char (s : string) (a : ascii) : string := s +:+ String a EmptyString.

(** The literal texts and the replacement fields of an f-string style
    template, as [string.Formatter().parse] splits it.  (No doubled braces,
    conversions or format specs: [RAG_PROMPT_TEMPLATE] has none.) *)
Fixpoint parse_template (in_field : bool) (cur : string) (s : string) : list fragment :=
  match s with
  | EmptyString => if in_field then [] else [Lit cur]
  | String a rest =>
      if in_field then
        if Ascii.eqb a "}" then Field cur :: parse_template false EmptyString rest
        else parse_template true (snoc_char cur a) rest
      else
        if Ascii.eqb a "{" then Lit cur :: parse_template true EmptyString rest
        else parse_template false (snoc_char cur a) rest
  end.

Definition input_variables (frags : list fragment) : list string :=
  omap (fun f => match f with Field n => Some n | Lit _ => None end) frags.

Definition render_fragment (kwargs : list (string * pyval)) (f : fragment) : string :=
  match f with
  | Lit text => text
  | Field name => match dict_get name kwargs with Some v => py_str v | None => EmptyString end
  end.

Fixpoint concat_str (parts : list string) : string :=
  match parts with
  | [] => EmptyString
  | p :: rest => p +:+ concat_str rest
  end.

(** [template.format] applied to the keyword arguments: every field is
    replaced by [str] of its value. *)
Definition format_template (template : string) (kwargs : list (string * pyval)) : string :=
  concat_str (map (render_fragment kwargs) (parse_template false EmptyString template)).

(** [ChatPromptTemplate.from_template(template)] as a runnable: the text of
    the one human message it produces.  An input that lacks a variable of the
    template is refused with a [KeyError] (whose long message is shortened
    here). *)
Definition ChatPromptTemplate {S : Type} (template : string)
  : Runnable S (list (string * pyval)) string :=
  fun input =>
    let vars := input_variables (parse_template false EmptyString template) in
    if forallb (fun v => bool_decide (is_Some (dict_get v input))) vars
    then ret (format_template template input)
    else raise (Exc KeyError "Input to ChatPromptTemplate is missing variables").

(** *** class RAGPipeline *)

Module RAGPipeline.

(** An instance: the language model and the vector store it was built
    with, as the behaviour of their calls over the state [W] of the outer
    world, and [top_k].  [llm] gives the text of the model's message;
    [vector_store] is the similarity search for a query and a [k]. *)
Record t (W : Type) : Type := {
  llm : string -> W -> outcome string * W;
  vector_store : string -> nat -> W -> outcome (list Document) * W;
  top_k : nat
}.
Arguments llm {W} _ _ _.
Arguments vector_store {W} _ _ _ _.
Arguments top_k {W} _.

(** The state a request runs in: the outer world and the calls made so far. *)
Definition state (W : Type) : Type := (W * list event)%type.

(** [RAGPipeline(llm=..., vector_store=..., top_k=5)]: the constructor, whose
    [top_k] defaults to 5. *)
Definition __init__ {W : Type} (llm : string -> W -> outcome string * W)
    (vector_store : string -> nat -> W -> outcome (list Document) * W)
    (top_k : option nat) : t W :=
  {| llm := llm; vector_store := vector_store; top_k := default 5%nat top_k |}.

Section methods.
Context {W : Type} (self : t W).

(** [self.retriever = vector_store.as_retriever(search_kwargs={"k": top_k})] *)
Definition retriever : Runnable (state W) string (list Document) :=
  fun query s =>
    let '(result, w') := vector_store self query (top_k self) (fst s) in
    (result, (w', snd s ++ [RetrieverInvoke query (top_k self) result])).

(** [self.llm] as a step of the chain. *)
Definition llm_step : Runnable (state W) string string :=
  fun prompt s =>
    let '(result, w') := llm self prompt (fst s) in
    (result, (w', snd s ++ [LlmInvoke prompt result])).

(** [StrOutputParser()]: the text of the message. *)
Definition StrOutputParser : Runnable (state W) string string := ret.

(** [self.prompt = ChatPromptTemplate.from_template(RAG_PROMPT_TEMPLATE)] *)
Definition prompt : Runnable (state W) (list (string * pyval)) string :=
  ChatPromptTemplate RAG_PROMPT_TEMPLATE.

Definition _format_context (docs : list Document) : string :=
  join (NL +:+ NL +:+ "---" +:+ NL +:+ NL) (map page_content docs).

(** The body of the loop of [_format_sources], on the pair of [sources]
    and [unique_urls]. *)
Definition _format_sources_step (acc : list SourceDict * gset string) (doc : Document)
  : list SourceDict * gset string :=
  let '(sources, unique_urls) := acc in
  match metadata doc !! "source" with
  | Some source_url =>
      if bool_decide (source_url <> EmptyString) && bool_decide (source_url ∉ unique_urls)
      then (sources ++ [ {| url := source_url;
                            title := default "No Title" (metadata doc !! "title") |} ],
            unique_urls ∪ {[ source_url ]})
      else acc
  | None => acc
  end.

Definition _format_sources (docs : list Document) : list SourceDict :=
  fst (foldl _format_sources_step ([], ∅) docs).

(** [itemgetter("question") | self.retriever | self._format_context] *)
Definition retrieval_chain : Runnable (state W) (list (string * string)) string :=
  itemgetter "question" |> retriever |> RunnableLambda _format_context.

(** [self.chain].  The input is the dictionary
    [{"question": str, "language": str}]; [PyStr] and [py_of_dict] only
    say which Python value each step's output is. *)
Definition chain : Runnable (state W) (list (string * string)) string :=
  RunnableParallel
    [ ("context", retrieval_chain |> RunnableLambda PyStr);
      ("question", RunnablePassthrough |> RunnableLambda py_of_dict);
      ("language", RunnablePassthrough |> RunnableLambda py_of_dict) ]
  |> prompt
  |> llm_step
  |> StrOutputParser.

Definition NOT_FOUND_ANSWER : string :=
  "Unfortunately, I could not find any relevant information " +:+
  "in my knowledge base.".

(** [answer(self, question, language)]; the caller's [language] defaults
    to ["Polish"]. *)
Definition answer (question language : string) : M (state W) AnswerDict :=
  relevant_docs <- retriever question ;;
  match relevant_docs with
  | [] => ret {| answer := NOT_FOUND_ANSWER; sources := [] |}
  | _ :: _ =>
      let input_data := [("question", question); ("language", language)] in
      generated_answer <- chain input_data ;;
      let sources := _format_sources relevant_docs in
      ret {| answer := generated_answer; sources := sources |}
  end.

End methods.

End RAGPipeline.

(** ** src/api/endpoints.py *)

(** [ask] returns an [AskResponse] or raises an [HTTPException]. *)
Inductive ask_outcome : Type :=
  | AskReturn (response : models.AskResponse)
  | HTTPException (status_code : nat) (detail : string).

(** [AskResponse] built from the keys of [result]: with the metadata of
    the passages typed as strings, the fields are strings already and
    validation passes. *)
Definition AskResponse_of (result : AnswerDict) : models.AskResponse :=
  {| models.answer := answer result;
     models.sources :=
       map (fun s => {| models.url := url s; models.title := title s |}) (sources result) |}.

(** The handler of [POST /ask]: the [try] around [pipeline.answer] and its
    [except Exception], which catches every exception of [py_exception]. *)
Definition ask {W : Type} (request : models.AskRequest) (pipeline : RAGPipeline.t W)
  : RAGPipeline.state W -> ask_outcome * RAGPipeline.state W :=
  fun s =>
    match RAGPipeline.answer pipeline (models.question request)
            (models.Language_value (models.language request)) s with
    | (Return result, s') => (AskReturn (AskResponse_of result), s')
    | (Raise e, s') =>
        (HTTPException 500
           ("An internal error occurred while processing the request: " +:+ exc_str e), s')
    end.

(** ** src/data_processing/loader.py *)

Module loader.

(** The [Document] the loader builds: its metadata holds whatever values
    the JSON record carries. *)
Record Document : Type := { page_content : string; metadata : list (string * pyval) }.

Inductive log_level : Type := INFO | WARNING | ERROR.

Definition log_record : Type := (log_level * string)%type.

Definition logger (level : log_level) (message : string) : M (list log_record) unit :=
  fun log => (Return tt, log ++ [(level, message)]).

(** [try: body except ...: handler]; [handler e] is [None] when no
    [except] clause matches [e]. *)
Definition try_except {S A : Type} (body : M S A) (handler : py_exception -> option (M S A))
  : M S A :=
  fun s =>
    match body s with
    | (Return a, s') => (Return a, s')
    | (Raise e, s') =>
        match handler e with
        | Some h => h s'
        | None => (Raise e, s')
        end
    end.

Definition lift {S A : Type} (r : outcome A) : M S A := fun s => (r, s).

(** [data.get(key, default)]: a method of [dict] only. *)
Definition py_get (data : pyval) (key : string) (default_ : pyval) : outcome pyval :=
  match data with
  | PyDict items => Return (default default_ (dict_get key items))
  | _ => Raise (Exc AttributeError
                  ("'" +:+ py_type_name data +:+ "' object has no attribute 'get'"))
  end.

Definition bind_outcome {A B : Type} (r : outcome A) (k : A -> outcome B) : outcome B :=
  match r with
  | Return a => k a
  | Raise e => Raise e
  end.

Notation "x <~ r ;; k" := (bind_outcome r (fun x => k))
  (at level 100, r at next level, right associativity).

(** [islice(f, start, stop)] over the lines of the file. *)
Definition islice {A : Type} (lines : list A) (start : nat) (stop : option nat) : list A :=
  match stop with
  | None => drop start lines
  | Some stop => take (stop - start) (drop start lines)
  end.

(** [stop or 'end'] inside the f-string *)
Definition stop_or_end (stop : option nat) : string :=
  match stop with
  | Some (S n) => pretty (S n)
  | _ => "end"
  end.

Section load.
(** [json.loads], of the standard library: the value of a line or the
    exception it raises ([JSONDecodeError] for a line that is not JSON).
    [fs_open] is [open(file_path, 'r', encoding='utf-8')] followed by
    reading the lines: the lines of the file, or the exception raised by
    [open].  The lines are taken at once, where the code reads them one by
    one: a file that cannot be read to its end (bytes that are not UTF-8) is
    not covered. *)
Variable json_loads : string -> outcome pyval.
Variable fs_open : string -> outcome (list string).

(** The statements of the inner [try] up to [Document(...)] for one line. *)
Definition prepare_line (line : string) : outcome Document :=
  data <~ json_loads line ;;
  title <~ py_get data "title" (PyStr "N/A") ;;
  h1 <~ py_get data "h1" (PyStr "N/A") ;;
  text <~ py_get data "text" (PyStr EmptyString) ;;
  let enriched_content :=
    "Page Title: " +:+ py_str title +:+ NL +:+
    "H1 Header: " +:+ py_str h1 +:+ NL +:+ NL +:+
    py_str text in
  source <~ py_get data "url" (PyStr EmptyString) ;;
  title' <~ py_get data "title" (PyStr "No Title") ;;
  content_hash <~ py_get data "content_hash" (PyStr EmptyString) ;;
  Return {| page_content := enriched_content;
            metadata := [("source", source); ("title", title');
                         ("content_hash", content_hash)] |}.

(** The [except] clauses of the inner [try], for line number [i]. *)
Definition line_handler (file_path : string) (i : nat) (documents : list Document)
    (e : py_exception) : option (M (list log_record) (list Document)) :=
  match exc_type e with
  | JSONDecodeError =>
      Some (_ <- logger WARNING
                   ("Skipping malformed JSON line " +:+ pretty (i + 1)%nat +:+
                    " in '" +:+ file_path +:+ "'.") ;;
            ret documents)
  | TypeError | KeyError =>
      Some (_ <- logger WARNING
                   ("Skipping line " +:+ pretty (i + 1)%nat +:+
                    " due to missing data in '" +:+ file_path +:+ "': " +:+ exc_str e) ;;
            ret documents)
  | _ => None
  end.

(** [for i, line in enumerate(file_iterator, start=start)] *)
Fixpoint for_lines (file_path : string) (i : nat) (lines : list string)
    (documents : list Document) : M (list log_record) (list Document) :=
  match lines with
  | [] => ret documents
  | line :: rest =>
      documents' <- try_except
                      (doc <- lift (prepare_line line) ;; ret (documents ++ [doc]))
                      (line_handler file_path i documents) ;;
      for_lines file_path (S i) rest documents'
  end.

(** [file_path] is [str(file_path)].  [start] is not negative ([islice]
    refuses a negative one). *)
Definition load_and_prepare_documents (file_path : string) (start : nat)
    (stop : option nat) : M (list log_record) (list Document) :=
  _ <- logger INFO
         ("Loading documents from '" +:+ file_path +:+ "' [lines " +:+ pretty start +:+
          "-" +:+ stop_or_end stop +:+ "]...") ;;
  found <- try_except
             (f <- lift (fs_open file_path) ;;
              documents <- for_lines file_path start (islice f start stop) [] ;;
              ret (Some documents))
             (fun e =>
                match exc_type e with
                | FileNotFoundError =>
                    Some (_ <- logger ERROR
                                 ("Data file not found at path: " +:+ file_path) ;;
                          ret None)
                | _ => None
                end) ;;
  match found with
  | None => ret []
  | Some documents =>
      _ <- logger INFO
             ("Successfully loaded and prepared " +:+ pretty (length documents) +:+
              " documents.") ;;
      ret documents
  end.

End load.

End loader.

(** ** Observations on a trace *)

(** The prompts handed to the language model, in order. *)
Definition prompts_sent (tr : list event) : list string :=
  omap (fun ev => match ev with LlmInvoke p _ => Some p | RetrieverInvoke _ _ _ => None end) tr.

(** The exception a call to an external service ended with, if it did. *)
Definition event_raised (ev : event) : option py_exception :=
  match ev with
  | RetrieverInvoke _ _ (Raise e) => Some e
  | LlmInvoke _ (Raise e) => Some e
  | _ => None
  end.

(** The calls a computation makes when run in the state [s]: what it adds
    to the trace. *)
Definition events_of {W A : Type} (m : M (RAGPipeline.state W) A) (s : RAGPipeline.state W)
  : list event :=
  drop (length (snd s)) (snd (snd (m s))).

(** What the chain hands to the prompt for a question and a language: the
    [context] step's string, and under both [question] and [language] the
    whole input dictionary that [RunnablePassthrough()] hands on. *)
Definition chain_prompt_input (question language context : string) : list (string * pyval) :=
  let input_data := [("question", question); ("language", language)] in
  [("context", PyStr context); ("question", py_of_dict input_data);
   ("language", py_of_dict input_data)].

(** ** Vocabulary of the specification *)

(** A passage bears the url [u]: its metadata has a [source], and that is the
    non-empty string [u]. *)
Definition bears (d : Document) (u : string) : Prop :=
  metadata d !! "source" = Some u /\ u <> EmptyString.

(** Position [i] of [docs] is the first passage that bears [u]. *)
Definition first_bearer (docs : list Document) (i : nat) (u : string) : Prop :=
  exists d, docs !! i = Some d /\ bears d u /\
            forall j d', (j < i)%nat -> docs !! j = Some d' -> ~ bears d' u.

(** The entry of [sources] was taken from the passage at position [i]. *)
Definition taken_from (docs : list Document) (i : nat) (entry : SourceDict) : Prop :=
  exists d, docs !! i = Some d /\ bears d (url entry) /\
            title entry = default "No Title" (metadata d !! "title").

(** The prompt as the specification describes it, [compose(question,
    language, context)]: the template with the [question] slot filled with the
    question string, the [language] slot with the language and the [context]
    slot with the context string. *)
Definition spec_compose (question language context : string) : string :=
  format_template RAG_PROMPT_TEMPLATE
    [("question", PyStr question); ("language", PyStr language); ("context", PyStr context)].

(** The separator of the context: two newlines, three hyphens, two newlines. *)
Definition CONTEXT_SEPARATOR : string := NL +:+ NL +:+ "---" +:+ NL +:+ NL.

(** The literal parts of [RAG_PROMPT_TEMPLATE] around its three fields. *)
Definition TEMPLATE_HEAD : string :=
  NL +:+
  "As a helpful informational assistant, your task is to answer the user's question" +:+ NL +:+
  "based exclusively on the provided context. Be concise and factual." +:+ NL +:+
  NL +:+
  "If the context does not contain the answer, you must reply with:" +:+ NL +:+
  DQUOTE +:+ "Unfortunately, I could not find information on this topic in my knowledge base."
         +:+ DQUOTE +:+ NL +:+
  NL +:+
  "Your final answer must be in the following language: ".

Definition TEMPLATE_BEFORE_CONTEXT : string := NL +:+ NL +:+ "Context:" +:+ NL.

Definition TEMPLATE_BEFORE_QUESTION : string := NL +:+ NL +:+ "Question:" +:+ NL.

(** The state of the loop after the passages [docs]. *)
Record sources_invariant (docs : list Document) (acc : list SourceDict * gset string) : Prop := {
  inv_seen : forall u, u ∈ acc.2 <-> exists d, d ∈ docs /\ bears d u;
  inv_urls : forall entry, entry ∈ acc.1 -> url entry ∈ acc.2;
  inv_nodup : NoDup (map url acc.1);
  inv_positions :
    exists positions : list nat,
      StronglySorted lt positions /\
      (forall i, i ∈ positions <-> exists u, first_bearer docs i u) /\
      Forall2 (taken_from docs) positions acc.1
}.

(** C4 as the specification states it: in a request with a non-empty
    retrieval result, the context of every prompt sent to the generator is the
    joined page contents of the passages [docs] of that retrieval, from which
    the sources are collected. *)
Definition context_is_of_the_source_passages {W : Type} (self : RAGPipeline.t W) : Prop :=
  forall (question language : string) (w : W) (docs : list Document) (w1 : W),
    docs <> [] ->
    RAGPipeline.vector_store self question (RAGPipeline.top_k self) w = (Return docs, w1) ->
    forall p,
      p ∈ prompts_sent (snd (snd (RAGPipeline.answer self question language (w, [])))) ->
      p = format_template RAG_PROMPT_TEMPLATE
            (chain_prompt_input question language
               (join CONTEXT_SEPARATOR (map page_content docs))).

(** ** Sample services and passages *)

(** A pipeline over scripted services.  The state of the outer world is the
    number of service calls made so far; the [n]-th call of the vector store
    gives [retrievals n], the [n]-th call of the model [generations n]. *)
Definition scripted (retrievals : nat -> outcome (list Document))
    (generations : nat -> outcome string) : RAGPipeline.t nat :=
  {| RAGPipeline.llm := fun _ n => (generations n, S n);
     RAGPipeline.vector_store := fun _ _ n => (retrievals n, S n);
     RAGPipeline.top_k := 5 |}.

Definition doc_a : Document :=
  {| page_content := "alpha";
     metadata := {[ "source" := "https://u/a"; "title" := "A" ]} |}.

Definition doc_a_dup : Document :=
  {| page_content := "alpha again";
     metadata := {[ "source" := "https://u/a"; "title" := "A-dup" ]} |}.

Definition doc_no_url : Document :=
  {| page_content := "orphan"; metadata := {[ "title" := "Orphan" ]} |}.

Definition doc_empty_url : Document :=
  {| page_content := "blank";
     metadata := {[ "source" := EmptyString; "title" := "Blank" ]} |}.

Definition doc_b : Document :=
  {| page_content := "beta"; metadata := {[ "source" := "https://u/b" ]} |}.

Definition sample_docs : list Document :=
  [doc_a; doc_no_url; doc_a_dup; doc_empty_url; doc_b].

(** The same passages at every call; a different generated text each time. *)
Definition steady_pipeline : RAGPipeline.t nat :=
  scripted (fun _ => Return sample_docs) (fun n => Return ("answer " +:+ pretty n)).

(** An index that holds nothing relevant. *)
Definition empty_pipeline : RAGPipeline.t nat :=
  scripted (fun _ => Return []) (fun _ => Return "unused").

(** An index that changes between the two retriever calls of one request. *)
Definition drifting_pipeline : RAGPipeline.t nat :=
  scripted (fun n => match n with O => Return [doc_a] | _ => Return [doc_b] end)
           (fun _ => Return "ok").

(** A generation service that is down. *)
Definition connection_error : py_exception :=
  Exc (OtherException "APIConnectionError") "Connection error.".

Definition failing_llm_pipeline : RAGPipeline.t nat :=
  scripted (fun _ => Return sample_docs) (fun _ => Raise connection_error).

(** ** The loader: vocabulary and a sample file system *)

(** How a line of the input reads: a JSON object with its members, or text
    that is not JSON. *)
Inductive line_reading : Type :=
  | JsonObject (items : list (string * pyval))
  | NotJson.

Definition reads_as (json_loads : string -> outcome pyval) (line : string) (r : line_reading)
  : Prop :=
  match r with
  | JsonObject items => json_loads line = Return (PyDict items)
  | NotJson => exists msg, json_loads line = Raise (Exc JSONDecodeError msg)
  end.

Definition objects_of (readings : list line_reading) : list (list (string * pyval)) :=
  omap (fun r => match r with JsonObject items => Some items | NotJson => None end) readings.

(** The warnings for the lines that are not JSON, the first line having the
    index [i]. *)
Fixpoint skip_warnings (file_path : string) (i : nat) (readings : list line_reading)
  : list loader.log_record :=
  match readings with
  | [] => []
  | JsonObject _ :: rest => skip_warnings file_path (S i) rest
  | NotJson :: rest =>
      (loader.WARNING,
       "Skipping malformed JSON line " +:+ pretty (i + 1)%nat +:+ " in '" +:+ file_path +:+ "'.")
      :: skip_warnings file_path (S i) rest
  end.

(** The member [key] of a record, or the string [missing]. *)
Definition member_or (items : list (string * pyval)) (key missing : string) : pyval :=
  default (PyStr missing) (dict_get key items).

(** The passage the specification describes for a record. *)
Definition spec_passage (items : list (string * pyval)) : loader.Document :=
  {| loader.page_content :=
       "Page Title: " +:+ py_str (member_or items "title" "N/A") +:+ NL +:+
       "H1 Header: " +:+ py_str (member_or items "h1" "N/A") +:+ NL +:+ NL +:+
       py_str (member_or items "text" EmptyString);
     loader.metadata :=
       [("source", member_or items "url" EmptyString);
        ("title", member_or items "title" "No Title");
        ("content_hash", member_or items "content_hash" EmptyString)] |}.

(** The first record of the log of a load. *)
Definition loading_message (file_path : string) (start : nat) (stop : option nat)
  : loader.log_record :=
  (loader.INFO,
   "Loading documents from '" +:+ file_path +:+ "' [lines " +:+ pretty start +:+ "-" +:+
   loader.stop_or_end stop +:+ "]...").

Definition json_string (s : string) : string := DQUOTE +:+ s +:+ DQUOTE.

(** Three lines of a [.jsonl] file: a record, an array, and text that is not
    JSON. *)
Definition line_record : string :=
  "{" +:+ json_string "title" +:+ ": " +:+ json_string "Admissions" +:+ ", " +:+
  json_string "text" +:+ ": " +:+ json_string "Deadline is July 15th." +:+ ", " +:+
  json_string "url" +:+ ": " +:+ json_string "https://u/a" +:+ "}" +:+ NL.

Definition line_array : string := "[]" +:+ NL.

Definition line_garbage : string := "not json" +:+ NL.

(** [json.loads] on the three lines above (and on no other text). *)
Definition sample_json_loads (line : string) : outcome pyval :=
  if String.eqb line line_record then
    Return (PyDict [("title", PyStr "Admissions"); ("text", PyStr "Deadline is July 15th.");
                    ("url", PyStr "https://u/a")])
  else if String.eqb line line_array then Return (PyList [])
  else Raise (Exc JSONDecodeError "Expecting value: line 1 column 1 (char 0)").

(** A file system with two files. *)
Definition sample_fs_open (file_path : string) : outcome (list string) :=
  if String.eqb file_path "data/content.jsonl" then Return [line_record; line_garbage]
  else if String.eqb file_path "data/mixed.jsonl" then Return [line_record; line_array; line_record]
  else Raise (Exc FileNotFoundError
                ("[Errno 2] No such file or directory: '" +:+ file_path +:+ "'")).

(** ** More sample files *)

(** A record whose title is [null], and a line of deeply nested arrays. *)
Definition line_null_title : string :=
  "{" +:+ json_string "title" +:+ ": null, " +:+
  json_string "text" +:+ ": " +:+ json_string "body" +:+ "}" +:+ NL.

Definition line_deep : string := "[[[[[[[[" +:+ NL.

Definition recursion_error : py_exception :=
  Exc (OtherException "RecursionError")
      "maximum recursion depth exceeded while decoding a JSON array from a unicode string".

(** [json.loads] on the sample lines; [line_deep] stands for nesting beyond
    the recursion limit. *)
Definition sample_json_loads_more (line : string) : outcome pyval :=
  if String.eqb line line_null_title then
    Return (PyDict [("title", PyNone); ("text", PyStr "body")])
  else if String.eqb line line_deep then Raise recursion_error
  else sample_json_loads line.

Definition permission_error : py_exception :=
  Exc (OtherException "PermissionError") "[Errno 13] Permission denied: 'data/locked.jsonl'".

Definition sample_fs_open_more (file_path : string) : outcome (list string) :=
  if String.eqb file_path "data/batches.jsonl" then
    Return [line_record; line_garbage; line_null_title; line_record]
  else if String.eqb file_path "data/deep.jsonl" then
    Return [line_record; line_garbage; line_deep; line_record]
  else if String.eqb file_path "data/locked.jsonl" then Raise permission_error
  else sample_fs_open file_path.

Definition record_items : list (string * pyval) :=
  [("title", PyStr "Admissions"); ("text", PyStr "Deadline is July 15th.");
   ("url", PyStr "https://u/a")].

Definition null_title_items : list (string * pyval) :=
  [("title", PyNone); ("text", PyStr "body")].

(** ** More sample services *)

(** An index that is emptied between the two retriever calls of a request. *)
Definition vanishing_pipeline : RAGPipeline.t nat :=
  scripted (fun n => match n with O => Return [doc_a; doc_b] | _ => Return [] end)
           (fun _ => Return "generated text").

(** An index that is rebuilt between the two retriever calls of a request:
    one passage at the first call, two other passages from then on. *)
Definition reindexed_pipeline : RAGPipeline.t nat :=
  scripted (fun n => match n with O => Return [doc_a] | _ => Return [doc_b; doc_no_url] end)
           (fun _ => Return "ok").

(** The entry of [sources] that a passage gives when it gives one. *)
Definition entry_of (d : Document) : SourceDict :=
  {| url := default EmptyString (metadata d !! "source");
     title := default "No Title" (metadata d !! "title") |}.

(** A passage with the [source] and [title] of [doc_a], another text and one
    more metadata key. *)
Definition doc_a_reindexed : Document :=
  {| page_content := "alpha, second edition";
     metadata := {[ "source" := "https://u/a"; "title" := "A"; "content_hash" := "9f2c" ]} |}.

(** ** Characters of a string *)

Definition is_continuation (a : ascii) : bool :=
  let b := N_of_ascii a in (128 <=? b)%N && (b <? 192)%N.

(** A byte outside a well-formed sequence, as [surrogateescape] decodes it. *)
Definition stray (a : ascii) : N := (56320 + N_of_ascii a)%N.

Definition payload (a : ascii) : N := (N_of_ascii a - 128)%N.

(** The code points of a string, from its UTF-8 bytes. *)
Fixpoint code_points (s : string) : list N :=
  match s with
  | EmptyString => []
  | String a0 r0 =>
      let b0 := N_of_ascii a0 in
      if (b0 <? 128)%N then b0 :: code_points r0
      else if (b0 <? 192)%N then stray a0 :: code_points r0
      else if (b0 <? 224)%N then
        match r0 with
        | String a1 r1 =>
            if is_continuation a1
            then ((b0 - 192) * 64 + payload a1)%N :: code_points r1
            else stray a0 :: code_points r0
        | _ => stray a0 :: code_points r0
        end
      else if (b0 <? 240)%N then
        match r0 with
        | String a1 (String a2 r2) =>
            if is_continuation a1 && is_continuation a2
            then ((b0 - 224) * 4096 + payload a1 * 64 + payload a2)%N :: code_points r2
            else stray a0 :: code_points r0
        | _ => stray a0 :: code_points r0
        end
      else if (b0 <? 248)%N then
        match r0 with
        | String a1 (String a2 (String a3 r3)) =>
            if is_continuation a1 && is_continuation a2 && is_continuation a3
            then ((b0 - 240) * 262144 + payload a1 * 4096 + payload a2 * 64 + payload a3)%N
                 :: code_points r3
            else stray a0 :: code_points r0
        | _ => stray a0 :: code_points r0
        end
      else stray a0 :: code_points r0
  end.

(** [len(s)] *)
Definition py_len (s : string) : nat := length (code_points s).

(** [c.isspace()] for one code point: the characters [str.strip()] removes. *)
Definition py_isspace (c : N) : bool :=
  ((9 <=? c) && (c <=? 13) || (28 <=? c) && (c <=? 32) || (c =? 133) || (c =? 160)
   || (c =? 5760) || (8192 <=? c) && (c <=? 8202) || (c =? 8232) || (c =? 8233)
   || (c =? 8239) || (c =? 8287) || (c =? 12288))%N.

Fixpoint lstrip (cs : list N) : list N :=
  match cs with
  | [] => []
  | c :: rest => if py_isspace c then lstrip rest else cs
  end.

(** [s.strip()], on code points. *)
Definition py_strip (cs : list N) : list N := reverse (lstrip (reverse (lstrip cs))).

(** Two characters in four bytes: the length is counted in characters. *)
Definition two_letters : string := chr 197 +:+ chr 188 +:+ chr 195 +:+ chr 179.

(** ** config.py *)

Module config.

(** The settings after validation; paths are given as their strings. *)
Record Settings : Type := {
  DATA_PATH : string;
  DB_PATH : string;
  EMBEDDING_MODEL_NAME : string;
  CHUNK_SIZE : Z;
  CHUNK_OVERLAP : Z;
  OPENAI_API_KEY : string
}.

Definition API_KEY_MISSING : string :=
  "OPENAI_API_KEY is not set in the .env file or environment variables. " +:+
  "It is required to run the application.".

(** The field validator of [OPENAI_API_KEY]; [v] is [None] or a string. *)
Definition validate_api_key_is_present (v : option string) : outcome string :=
  match v with
  | None => Raise (Exc (OtherException "ValueError") API_KEY_MISSING)
  | Some v =>
      if bool_decide (py_strip (code_points v) = [])
      then Raise (Exc (OtherException "ValueError") API_KEY_MISSING)
      else Return v
  end.

End config.

(** ** src/api/models.py: validation of a request body *)

(** One entry of a validation error: where, and the type of the error. *)
Definition validation_error : Type := (list string * string)%type.

(** The field [question]: required, a string of 3 to 500 characters. *)
Definition validate_question (body : list (string * pyval)) : string + validation_error :=
  match dict_get "question" body with
  | None => inr (["body"; "question"], "missing")
  | Some (PyStr q) =>
      if (py_len q <? 3)%nat then inr (["body"; "question"], "string_too_short")
      else if (500 <? py_len q)%nat then inr (["body"; "question"], "string_too_long")
      else inl q
  | Some _ => inr (["body"; "question"], "string_type")
  end.

(** The field [language]: one of the two literals, [Polish] when absent. *)
Definition validate_language (body : list (string * pyval))
  : models.Language + validation_error :=
  match dict_get "language" body with
  | None => inl models.Polish
  | Some (PyStr l) =>
      if String.eqb l "Polish" then inl models.Polish
      else if String.eqb l "English" then inl models.English
      else inr (["body"; "language"], "literal_error")
  | Some _ => inr (["body"; "language"], "literal_error")
  end.

Definition errors_of {A : Type} (r : A + validation_error) : list validation_error :=
  match r with inl _ => [] | inr e => [e] end.

(** [AskRequest] validated from the JSON value of a request body: the request,
    or the errors of its fields in the order of the fields. *)
Definition AskRequest_validate (body : pyval) : models.AskRequest + list validation_error :=
  match body with
  | PyDict items =>
      match validate_question items, validate_language items with
      | inl q, inl l => inl {| models.question := q; models.language := l |}
      | rq, rl => inr (errors_of rq ++ errors_of rl)
      end
  | _ => inr [(["body"], "model_attributes_type")]
  end.

(** ** src/core/dependencies.py *)

Module dependencies.

(** What the providers ask of the outer world, in order. *)
Inductive call : Type :=
  | PathExists (path : string) (result : bool)
  | NewHuggingFaceEmbeddings (model_name : string) (model_kwargs encode_kwargs : pyval)
  | NewChroma (persist_directory : string)
  | NewChatOpenAI (model : string) (temperature : pyval).

(** The model of a language model and of a vector store is the behaviour of
    their calls, as [RAGPipeline.t] holds them. *)
Definition LLM (W : Type) : Type := string -> W -> outcome string * W.
Definition VectorStore (W : Type) : Type :=
  string -> nat -> W -> outcome (list Document) * W.

(** The libraries and the disk, over the state [D] of the outer world: whether
    a path exists, and the three constructors, each of which returns its
    object or raises.  [E] is the type of an embedding model. *)
Record externals (D E W : Type) : Type := {
  path_exists : string -> D -> bool;
  HuggingFaceEmbeddings : string -> pyval -> pyval -> D -> outcome E * D;
  Chroma : string -> E -> D -> outcome (VectorStore W) * D;
  ChatOpenAI : string -> pyval -> D -> outcome (LLM W) * D
}.
Arguments path_exists {D E W} _ _ _.
Arguments HuggingFaceEmbeddings {D E W} _ _ _ _ _.
Arguments Chroma {D E W} _ _ _ _.
Arguments ChatOpenAI {D E W} _ _ _ _.

(** The state of the module: the outer world, the log, the calls made, and
    the cache of each of the four providers. *)
Record state (D E W : Type) : Type := {
  world : D;
  log : list loader.log_record;
  calls : list call;
  embedding_model : option E;
  vector_store : option (VectorStore W);
  llm : option (LLM W);
  rag_pipeline : option (RAGPipeline.t W)
}.
Arguments world {D E W} _.
Arguments log {D E W} _.
Arguments calls {D E W} _.
Arguments embedding_model {D E W} _.
Arguments vector_store {D E W} _.
Arguments llm {D E W} _.
Arguments rag_pipeline {D E W} _.

Section providers.
Context {D E W : Type} (ext : externals D E W) (settings : config.Settings).

Local Abbreviation St := (state D E W).

Definition logger (level : loader.log_level) (message : string) : M St unit :=
  fun s =>
    (Return tt,
     {| world := world s; log := log s ++ [(level, message)]; calls := calls s;
        embedding_model := embedding_model s; vector_store := vector_store s;
        llm := llm s; rag_pipeline := rag_pipeline s |}).

(** A call of a constructor (or of [exists]) in the outer world. *)
Definition external {A : Type} (c : call) (f : D -> outcome A * D) : M St A :=
  fun s =>
    let '(result, d) := f (world s) in
    (result,
     {| world := d; log := log s; calls := calls s ++ [c];
        embedding_model := embedding_model s; vector_store := vector_store s;
        llm := llm s; rag_pipeline := rag_pipeline s |}).

(** [@lru_cache(maxsize=1)] on a function without arguments: the cached
    value if there is one; else the function is run, and its value is cached
    when it returns (not when it raises). *)
Definition lru_cache {A : Type} (cached : St -> option A) (store : A -> St -> St)
    (f : M St A) : M St A :=
  fun s =>
    match cached s with
    | Some a => (Return a, s)
    | None =>
        match f s with
        | (Return a, s') => (Return a, store a s')
        | (Raise e, s') => (Raise e, s')
        end
    end.

Definition store_embedding_model (a : E) (s : St) : St :=
  {| world := world s; log := log s; calls := calls s;
     embedding_model := Some a; vector_store := vector_store s;
     llm := llm s; rag_pipeline := rag_pipeline s |}.

Definition store_vector_store (a : VectorStore W) (s : St) : St :=
  {| world := world s; log := log s; calls := calls s;
     embedding_model := embedding_model s; vector_store := Some a;
     llm := llm s; rag_pipeline := rag_pipeline s |}.

Definition store_llm (a : LLM W) (s : St) : St :=
  {| world := world s; log := log s; calls := calls s;
     embedding_model := embedding_model s; vector_store := vector_store s;
     llm := Some a; rag_pipeline := rag_pipeline s |}.

Definition store_rag_pipeline (a : RAGPipeline.t W) (s : St) : St :=
  {| world := world s; log := log s; calls := calls s;
     embedding_model := embedding_model s; vector_store := vector_store s;
     llm := llm s; rag_pipeline := Some a |}.

Definition DEVICE_CPU : pyval := PyDict [("device", PyStr "cpu")].
Definition NORMALIZE : pyval := PyDict [("normalize_embeddings", PyBool true)].
Definition TEMPERATURE : pyval := PyFloat "0.1".

Definition get_embedding_model : M St E :=
  lru_cache embedding_model store_embedding_model
    (_ <- logger loader.INFO
            ("Loading embedding model '" +:+ config.EMBEDDING_MODEL_NAME settings +:+ "'...") ;;
     model <- external
                (NewHuggingFaceEmbeddings (config.EMBEDDING_MODEL_NAME settings)
                   DEVICE_CPU NORMALIZE)
                (HuggingFaceEmbeddings ext (config.EMBEDDING_MODEL_NAME settings)
                   DEVICE_CPU NORMALIZE) ;;
     _ <- logger loader.INFO "Embedding model loaded successfully." ;;
     ret model).

Definition DB_NOT_FOUND : string :=
  "Vector database not found at '" +:+ config.DB_PATH settings +:+ "'. " +:+
  "Please run the indexing script first: `python scripts/build_index.py`".

Definition get_vector_store : M St (VectorStore W) :=
  lru_cache vector_store store_vector_store
    (_ <- logger loader.INFO
            ("Connecting to vector store at: " +:+ config.DB_PATH settings) ;;
     found <- (fun s =>
                 let b := path_exists ext (config.DB_PATH settings) (world s) in
                 external (PathExists (config.DB_PATH settings) b)
                   (fun d => (Return b, d)) s) ;;
     if negb found then
       _ <- logger loader.ERROR DB_NOT_FOUND ;;
       raise (Exc FileNotFoundError DB_NOT_FOUND)
     else
       embedding_model <- get_embedding_model ;;
       vector_store <- external (NewChroma (config.DB_PATH settings))
                         (Chroma ext (config.DB_PATH settings) embedding_model) ;;
       _ <- logger loader.INFO "Vector store connected successfully." ;;
       ret vector_store).

Definition get_llm : M St (LLM W) :=
  lru_cache llm store_llm
    (_ <- logger loader.INFO "Initializing LLM (gpt-4o)..." ;;
     llm <- external (NewChatOpenAI "gpt-4o" TEMPERATURE)
              (ChatOpenAI ext "gpt-4o" TEMPERATURE) ;;
     _ <- logger loader.INFO "LLM initialized successfully." ;;
     ret llm).

Definition get_rag_pipeline : M St (RAGPipeline.t W) :=
  lru_cache rag_pipeline store_rag_pipeline
    (_ <- logger loader.INFO "Assembling the RAG pipeline..." ;;
     llm <- get_llm ;;
     vector_store <- get_vector_store ;;
     let pipeline := RAGPipeline.__init__ llm vector_store None in
     _ <- logger loader.INFO "RAG pipeline assembled successfully." ;;
     ret pipeline).

End providers.

End dependencies.

(** ** src/api/endpoints.py: the route *)

(** What a client of [POST /ask] gets. *)
Inductive http_response : Type :=
  | Http200 (body : models.AskResponse)
  | Http422 (detail : list validation_error)
  | HttpError (status_code : nat) (detail : string).

(** The route [POST /ask] on the JSON value of a body, as FastAPI serves
    [ask(request: AskRequest, pipeline = Depends(get_rag_pipeline))].  The
    dependency is resolved first: an exception of [get_rag_pipeline] is not
    handled and gives the plain response 500.  Then the fields of the body
    are validated as an [AskRequest]; a body that fails is answered with 422.
    Then [ask] is called; its [HTTPException] becomes the response with its
    status code and detail.  The state is that of the providers together with
    that of the request-time services. *)
Definition post_ask {D E W : Type} (ext : dependencies.externals D E W)
    (settings : config.Settings) (body : pyval)
  : dependencies.state D E W * RAGPipeline.state W
    -> http_response * (dependencies.state D E W * RAGPipeline.state W) :=
  fun '(d, s) =>
    match dependencies.get_rag_pipeline ext settings d with
    | (Raise _, d') => (HttpError 500 "Internal Server Error", (d', s))
    | (Return pipeline, d') =>
        match AskRequest_validate body with
        | inr errors => (Http422 errors, (d', s))
        | inl request =>
            match ask request pipeline s with
            | (AskReturn response, s') => (Http200 response, (d', s'))
            | (HTTPException status_code detail, s') =>
                (HttpError status_code detail, (d', s'))
            end
        end
    end.

(** ** Sample settings and libraries *)

Definition sample_settings : config.Settings :=
  {| config.DATA_PATH := "/app/data/content.jsonl";
     config.DB_PATH := "/app/vector_db";
     config.EMBEDDING_MODEL_NAME := "intfloat/multilingual-e5-large";
     config.CHUNK_SIZE := 1500;
     config.CHUNK_OVERLAP := 200;
     config.OPENAI_API_KEY := "sk-sample" |}.

(** Libraries whose constructors succeed; the state of the outer world says
    whether the directory of the vector database exists, and an embedding
    model is known by its name. *)
Definition sample_externals : dependencies.externals bool string nat :=
  {| dependencies.path_exists := fun _ d => d;
     dependencies.HuggingFaceEmbeddings := fun name _ _ d => (Return name, d);
     dependencies.Chroma :=
       fun _ _ d => (Return (RAGPipeline.vector_store steady_pipeline), d);
     dependencies.ChatOpenAI := fun _ _ d => (Return (RAGPipeline.llm steady_pipeline), d) |}.

(** Libraries in which the client of the language model cannot be built. *)
Definition openai_error : py_exception :=
  Exc (OtherException "OpenAIError") "The api_key client option must be set.".

Definition sample_externals_without_llm : dependencies.externals bool string nat :=
  {| dependencies.path_exists := fun _ d => d;
     dependencies.HuggingFaceEmbeddings := fun name _ _ d => (Return name, d);
     dependencies.Chroma :=
       fun _ _ d => (Return (RAGPipeline.vector_store steady_pipeline), d);
     dependencies.ChatOpenAI := fun _ _ d => (Raise openai_error, d) |}.

(** The module just imported: nothing cached, nothing logged. *)
Definition fresh_state (db_exists : bool) : dependencies.state bool string nat :=
  {| dependencies.world := db_exists; dependencies.log := []; dependencies.calls := [];
     dependencies.embedding_model := None; dependencies.vector_store := None;
     dependencies.llm := None; dependencies.rag_pipeline := None |}.

(** ** Python values: a sample of [repr] *)

Example py_repr_sample :
  py_repr (PyDict [("question", PyStr "abc"); ("n", PyList [PyInt (-12); PyNone; PyStr "it's"])])
  = "{'question': 'abc', 'n': [-12, None, " +:+ DQUOTE +:+ "it's" +:+ DQUOTE +:+ "]}".
Proof. vm_compute. reflexivity. Qed.

(** ** Basic facts about the chain *)

Section chain_facts.
Context {W : Type} (self : RAGPipeline.t W).

Lemma retriever_run (query : string) (s : RAGPipeline.state W) result w' :
  RAGPipeline.vector_store self query (RAGPipeline.top_k self) (fst s) = (result, w') ->
  RAGPipeline.retriever self query s
  = (result, (w', snd s ++ [RetrieverInvoke query (RAGPipeline.top_k self) result])).
Proof. intros H. unfold RAGPipeline.retriever. by rewrite H. Qed.

Lemma llm_step_run (p : string) (s : RAGPipeline.state W) result w' :
  RAGPipeline.llm self p (fst s) = (result, w') ->
  RAGPipeline.llm_step self p s = (result, (w', snd s ++ [LlmInvoke p result])).
Proof. intros H. unfold RAGPipeline.llm_step. by rewrite H. Qed.

Lemma RAG_PROMPT_TEMPLATE_variables :
  input_variables (parse_template false EmptyString RAG_PROMPT_TEMPLATE)
  = ["language"; "context"; "question"].
Proof. vm_compute. reflexivity. Qed.

Lemma prompt_run (question language context : string) (s : RAGPipeline.state W) :
  RAGPipeline.prompt (chain_prompt_input question language context) s
  = (Return (format_template RAG_PROMPT_TEMPLATE
               (chain_prompt_input question language context)), s).
Proof.
  unfold RAGPipeline.prompt, ChatPromptTemplate.
  rewrite RAG_PROMPT_TEMPLATE_variables. reflexivity.
Qed.

(** The chain on [{"question": question, "language": language}] when the
    retriever answers: one retriever call, then one call of the model. *)
Lemma chain_run (question language : string) (s : RAGPipeline.state W) docs w1 result w2 :
  let k := RAGPipeline.top_k self in
  let p := format_template RAG_PROMPT_TEMPLATE
             (chain_prompt_input question language (RAGPipeline._format_context docs)) in
  RAGPipeline.vector_store self question k (fst s) = (Return docs, w1) ->
  RAGPipeline.llm self p w1 = (result, w2) ->
  RAGPipeline.chain self [("question", question); ("language", language)] s
  = (result, (w2, snd s ++ [RetrieverInvoke question k (Return docs); LlmInvoke p result])).
Proof.
  intros k p Hret Hllm.
  unfold RAGPipeline.chain, RAGPipeline.retrieval_chain, pipe, RunnableParallel,
    RunnablePassthrough, RunnableLambda, itemgetter, RAGPipeline.StrOutputParser,
    bind, ret; simpl.
  rewrite (retriever_run _ _ _ _ Hret).
  fold (chain_prompt_input question language (RAGPipeline._format_context docs)).
  rewrite prompt_run.
  erewrite llm_step_run by (simpl; exact Hllm).
  simpl. rewrite <- app_assoc. by destruct result.
Qed.

(** The chain when its retriever call raises: the model is not called. *)
Lemma chain_retriever_raises (question language : string) (s : RAGPipeline.state W) e w1 :
  let k := RAGPipeline.top_k self in
  RAGPipeline.vector_store self question k (fst s) = (Raise e, w1) ->
  RAGPipeline.chain self [("question", question); ("language", language)] s
  = (Raise e, (w1, snd s ++ [RetrieverInvoke question k (Raise e)])).
Proof.
  intros k Hret.
  unfold RAGPipeline.chain, RAGPipeline.retrieval_chain, pipe, RunnableParallel,
    RunnablePassthrough, RunnableLambda, itemgetter, RAGPipeline.StrOutputParser,
    bind, ret; simpl.
  by rewrite (retriever_run _ _ _ _ Hret).
Qed.

End chain_facts.

(** ** The four ways a call of [answer] can go *)

Section answer_cases.
Context {W : Type} (self : RAGPipeline.t W).
Implicit Types (question language : string) (s : RAGPipeline.state W).

Local Abbreviation k := (RAGPipeline.top_k self).

Lemma answer_retriever_raises question language s e w1 :
  RAGPipeline.vector_store self question k (fst s) = (Raise e, w1) ->
  RAGPipeline.answer self question language s
  = (Raise e, (w1, snd s ++ [RetrieverInvoke question k (Raise e)])).
Proof.
  intros H. unfold RAGPipeline.answer, bind.
  by rewrite (retriever_run _ _ _ _ _ H).
Qed.

Lemma answer_no_documents question language s w1 :
  RAGPipeline.vector_store self question k (fst s) = (Return [], w1) ->
  RAGPipeline.answer self question language s
  = (Return {| answer := RAGPipeline.NOT_FOUND_ANSWER; sources := [] |},
     (w1, snd s ++ [RetrieverInvoke question k (Return [])])).
Proof.
  intros H. unfold RAGPipeline.answer, bind.
  by rewrite (retriever_run _ _ _ _ _ H).
Qed.

Lemma answer_chain_retriever_raises question language s docs w1 e w2 :
  docs <> [] ->
  RAGPipeline.vector_store self question k (fst s) = (Return docs, w1) ->
  RAGPipeline.vector_store self question k w1 = (Raise e, w2) ->
  RAGPipeline.answer self question language s
  = (Raise e, (w2, snd s ++ [RetrieverInvoke question k (Return docs);
                             RetrieverInvoke question k (Raise e)])).
Proof.
  intros Hne H1 H2. unfold RAGPipeline.answer, bind.
  rewrite (retriever_run _ _ _ _ _ H1).
  destruct docs as [|d docs]; [done|].
  erewrite chain_retriever_raises by (simpl; exact H2).
  simpl. by rewrite <- app_assoc.
Qed.

Lemma answer_generates question language s docs w1 docs' w2 result w3 :
  let p := format_template RAG_PROMPT_TEMPLATE
             (chain_prompt_input question language (RAGPipeline._format_context docs')) in
  docs <> [] ->
  RAGPipeline.vector_store self question k (fst s) = (Return docs, w1) ->
  RAGPipeline.vector_store self question k w1 = (Return docs', w2) ->
  RAGPipeline.llm self p w2 = (result, w3) ->
  RAGPipeline.answer self question language s
  = (match result with
     | Return generated_answer =>
         Return {| answer := generated_answer;
                   sources := RAGPipeline._format_sources docs |}
     | Raise e => Raise e
     end,
     (w3, snd s ++ [RetrieverInvoke question k (Return docs);
                    RetrieverInvoke question k (Return docs');
                    LlmInvoke p result])).
Proof.
  intros p Hne H1 H2 H3. unfold RAGPipeline.answer, bind.
  rewrite (retriever_run _ _ _ _ _ H1).
  destruct docs as [|d docs]; [done|].
  erewrite chain_run by (simpl; first [exact H2 | exact H3]).
  simpl. rewrite <- app_assoc. by destruct result.
Qed.

End answer_cases.

(** ** [_format_sources]: what the loop maintains *)

Section format_sources_facts.
Implicit Types (docs : list Document) (d : Document) (u : string) (i : nat).

Lemma first_bearer_lt docs i u : first_bearer docs i u -> (i < length docs)%nat.
Proof. intros (d & Hd & _). by eapply lookup_lt_Some. Qed.

(** Appending a passage changes nothing at the earlier positions. *)
Lemma first_bearer_snoc_old docs d i u :
  (i < length docs)%nat -> first_bearer (docs ++ [d]) i u <-> first_bearer docs i u.
Proof.
  intros Hi. unfold first_bearer. split.
  - intros (d0 & Hd0 & Hb & Hfirst). exists d0.
    rewrite lookup_app_l in Hd0 by done. split_and!; [done..|].
    intros j d' Hj Hd'. apply (Hfirst j d' Hj).
    rewrite lookup_app_l; [done | lia].
  - intros (d0 & Hd0 & Hb & Hfirst). exists d0.
    rewrite lookup_app_l by done. split_and!; [done..|].
    intros j d' Hj Hd'. apply (Hfirst j d' Hj).
    rewrite lookup_app_l in Hd'; [done | lia].
Qed.

(** The appended passage is a first bearer exactly when it bears a url that
    no earlier passage bears. *)
Lemma first_bearer_snoc_new docs d u :
  first_bearer (docs ++ [d]) (length docs) u
  <-> bears d u /\ forall d', d' ∈ docs -> ~ bears d' u.
Proof.
  unfold first_bearer. split.
  - intros (d0 & Hd0 & Hb & Hfirst).
    rewrite list_lookup_middle in Hd0 by done. injection Hd0 as <-.
    split; [done|]. intros d' Hin.
    apply list_elem_of_lookup in Hin as [j Hj].
    apply (Hfirst j d'); [by eapply lookup_lt_Some|].
    rewrite lookup_app_l; [done | by eapply lookup_lt_Some].
  - intros [Hb Hnone]. exists d.
    rewrite list_lookup_middle by done. split_and!; [done..|].
    intros j d' Hj Hd'. rewrite lookup_app_l in Hd' by done.
    apply Hnone. apply list_elem_of_lookup. eauto.
Qed.

Lemma taken_from_snoc docs d i entry :
  taken_from docs i entry -> taken_from (docs ++ [d]) i entry.
Proof.
  intros (d0 & Hd0 & Hrest). exists d0. split; [|done].
  rewrite lookup_app_l; [done | by eapply lookup_lt_Some].
Qed.

Lemma sources_invariant_nil : sources_invariant [] ([], ∅).
Proof.
  split; simpl.
  - intros u. split; [set_solver|]. intros (d & Hd & _). by apply elem_of_nil in Hd.
  - intros entry Hin. by apply elem_of_nil in Hin.
  - constructor.
  - exists []. split_and!; [constructor | | constructor].
    intros i. split; [by intros ?%elem_of_nil|].
    intros (u & Hu%first_bearer_lt). simpl in Hu. lia.
Qed.

(** A passage that adds no entry: it bears no url, or one already seen. *)
Lemma sources_invariant_skip docs d acc :
  sources_invariant docs acc ->
  (forall u, bears d u -> u ∈ acc.2) ->
  sources_invariant (docs ++ [d]) acc.
Proof.
  intros [Hseen Hurls Hnodup (positions & Hsorted & Hpos & Htaken)] Hold.
  split; [| done | done |].
  - intros u. rewrite Hseen. split.
    + intros (d' & Hin & Hb). exists d'. split; [|done]. apply elem_of_app. by left.
    + intros (d' & [Hin| ->%list_elem_of_singleton]%elem_of_app & Hb); [by eauto|].
      apply Hseen. by apply Hold.
  - exists positions. split_and!; [done | |].
    + intros i. rewrite Hpos. split.
      * intros [u Hu]. exists u.
        apply first_bearer_snoc_old; [by eapply first_bearer_lt | done].
      * intros [u Hu].
        destruct (decide (i < length docs)%nat) as [Hlt|Hge].
        { exists u. by apply first_bearer_snoc_old in Hu. }
        assert (i = length docs) as ->.
        { apply first_bearer_lt in Hu. rewrite length_app in Hu. simpl in Hu. lia. }
        apply first_bearer_snoc_new in Hu as [Hb Hnone].
        apply Hold, Hseen in Hb as (d' & Hin & Hb'). by destruct (Hnone d' Hin).
    + eapply Forall2_impl; [exact Htaken|]. intros i entry. apply taken_from_snoc.
Qed.

(** A passage that adds an entry: it bears a url not seen before. *)
Lemma sources_invariant_add docs d u acc :
  sources_invariant docs acc ->
  bears d u -> u ∉ acc.2 ->
  sources_invariant (docs ++ [d])
    (acc.1 ++ [ {| url := u; title := default "No Title" (metadata d !! "title") |} ],
     acc.2 ∪ {[ u ]}).
Proof.
  intros [Hseen Hurls Hnodup (positions & Hsorted & Hpos & Htaken)] Hb Hnew.
  assert (Honly : forall u', bears d u' -> u' = u).
  { intros u' [Hu' _]. destruct Hb as [Hu _]. congruence. }
  split; simpl.
  - intros u'. rewrite elem_of_union, Hseen, elem_of_singleton. split.
    + intros [(d' & Hin & Hb')| ->].
      * exists d'. split; [|done]. apply elem_of_app. by left.
      * exists d. split; [|done]. apply elem_of_app. right. by apply list_elem_of_singleton.
    + intros (d' & [Hin| ->%list_elem_of_singleton]%elem_of_app & Hb'); [by eauto|].
      right. by apply Honly.
  - intros entry [Hin| ->%list_elem_of_singleton]%elem_of_app.
    + apply elem_of_union. left. by apply Hurls.
    + apply elem_of_union. right. by apply elem_of_singleton.
  - rewrite map_app. apply NoDup_app. split_and!; [done | | apply NoDup_singleton].
    intros u' Hin Heq%list_elem_of_singleton. simpl in Heq. subst u'.
    apply list_elem_of_fmap in Hin as (entry & Heq & Hin).
    apply Hnew. rewrite Heq. by apply Hurls.
  - exists (positions ++ [length docs]). split_and!.
    + apply StronglySorted_app. split_and!; [|done|repeat constructor].
      intros i j Hi ->%list_elem_of_singleton.
      apply Hpos in Hi as [u' Hu']. by eapply first_bearer_lt.
    + intros i. rewrite elem_of_app, list_elem_of_singleton, Hpos. split.
      * intros [[u' Hu']| ->].
        -- exists u'. apply first_bearer_snoc_old; [by eapply first_bearer_lt | done].
        -- exists u. apply first_bearer_snoc_new. split; [done|].
           intros d' Hin Hb'. apply Hnew, Hseen. eauto.
      * intros [u' Hu'].
        destruct (decide (i < length docs)%nat) as [Hlt|Hge].
        { left. exists u'. by apply first_bearer_snoc_old in Hu'. }
        right. apply first_bearer_lt in Hu'. rewrite length_app in Hu'. simpl in Hu'. lia.
    + apply Forall2_app.
      * eapply Forall2_impl; [exact Htaken|]. intros i entry. apply taken_from_snoc.
      * repeat constructor. exists d. by rewrite list_lookup_middle.
Qed.

Lemma _format_sources_step_invariant docs d acc :
  sources_invariant docs acc ->
  sources_invariant (docs ++ [d]) (RAGPipeline._format_sources_step acc d).
Proof.
  intros Hinv. destruct acc as [srcs seen]. unfold RAGPipeline._format_sources_step.
  destruct (metadata d !! "source") as [u|] eqn:Hsrc.
  - destruct (bool_decide (u <> EmptyString)) eqn:Hne; simpl.
    + apply bool_decide_eq_true in Hne.
      destruct (bool_decide (u ∉ seen)) eqn:Hseen; simpl.
      * apply bool_decide_eq_true in Hseen.
        by apply (sources_invariant_add docs d u (srcs, seen)).
      * apply bool_decide_eq_false in Hseen.
        apply sources_invariant_skip; [done|].
        intros u' [Hu' _]. simpl. assert (u' = u) as -> by congruence.
        by destruct (decide (u ∈ seen)).
    + apply bool_decide_eq_false in Hne.
      apply sources_invariant_skip; [done|].
      intros u' [Hu' Hne']. assert (u' = u) as -> by congruence. by destruct Hne.
  - apply sources_invariant_skip; [done|]. intros u' [Hu' _]. congruence.
Qed.

Lemma _format_sources_invariant docs :
  sources_invariant docs (foldl RAGPipeline._format_sources_step ([], ∅) docs).
Proof.
  induction docs as [|d docs IH] using rev_ind.
  - apply sources_invariant_nil.
  - rewrite foldl_snoc. by apply _format_sources_step_invariant.
Qed.

End format_sources_facts.

(** ** Properties of the orchestrator *)

Section orchestrator.
Context {W : Type} (self : RAGPipeline.t W).
Implicit Types (question language : string) (s : RAGPipeline.state W).

Local Abbreviation k := (RAGPipeline.top_k self).

(** When [answer] returns after a non-empty retrieval, its sources are those
    of the passages of that retrieval. *)
Lemma answer_returns_sources question language s docs w1 result s' :
  docs <> [] ->
  RAGPipeline.vector_store self question k (fst s) = (Return docs, w1) ->
  RAGPipeline.answer self question language s = (Return result, s') ->
  sources result = RAGPipeline._format_sources docs.
Proof.
  intros Hne H1 Hanswer.
  destruct (RAGPipeline.vector_store self question k w1) as [[docs'|e] w2] eqn:H2.
  - destruct (RAGPipeline.llm self
                (format_template RAG_PROMPT_TEMPLATE
                   (chain_prompt_input question language (RAGPipeline._format_context docs')))
                w2) as [[generated|e] w3] eqn:H3.
    + rewrite (answer_generates self _ language _ _ _ _ _ _ _ Hne H1 H2 H3) in Hanswer.
      by injection Hanswer as <- _.
    + by rewrite (answer_generates self _ language _ _ _ _ _ _ _ Hne H1 H2 H3) in Hanswer.
  - by rewrite (answer_chain_retriever_raises self _ language _ _ _ _ _ Hne H1 H2) in Hanswer.
Qed.

(** C1.  When the retrieval result is non-empty and [answer] returns, the
    urls of [sources] are pairwise distinct, and [sources] lists, in the
    order of the retrieved passages, exactly the passages that are the first
    to bear their url: a passage without a url or with an empty one, and a
    later passage with a url already met, give no entry; each entry has the
    url and the title (or ["No Title"]) of the first passage bearing it. *)
Theorem sources_unique_in_first_occurrence_order question language s docs w1 result s' :
  docs <> [] ->
  RAGPipeline.vector_store self question k (fst s) = (Return docs, w1) ->
  RAGPipeline.answer self question language s = (Return result, s') ->
  NoDup (map url (sources result)) /\
  exists positions : list nat,
    StronglySorted lt positions /\
    (forall i, i ∈ positions <-> exists u, first_bearer docs i u) /\
    Forall2 (taken_from docs) positions (sources result).
Proof.
  intros Hne H1 Hanswer.
  rewrite (answer_returns_sources _ _ _ _ _ _ _ Hne H1 Hanswer).
  destruct (_format_sources_invariant docs) as [_ _ Hnodup Hpositions].
  by split.
Qed.

(** C2.  When the retriever returns no passage, [answer] returns the fixed
    sentence and no sources, whatever the question and the language. *)
Theorem answer_not_found question language s w1 :
  RAGPipeline.vector_store self question k (fst s) = (Return [], w1) ->
  fst (RAGPipeline.answer self question language s)
  = Return {| answer := "Unfortunately, I could not find any relevant information in my knowledge base.";
              sources := [] |}.
Proof. intros H. by rewrite (answer_no_documents self _ language _ _ H). Qed.

(** C10.  When the retriever returns no passage, the request consists of
    that one retriever call: the trace gains no call of the language model,
    and the outer world is left as the retriever left it. *)
Theorem not_found_never_invokes_llm question language s w1 :
  RAGPipeline.vector_store self question k (fst s) = (Return [], w1) ->
  snd (RAGPipeline.answer self question language s)
  = (w1, snd s ++ [RetrieverInvoke question k (Return [])]) /\
  prompts_sent (snd (snd (RAGPipeline.answer self question language s)))
  = prompts_sent (snd s).
Proof.
  intros H. rewrite (answer_no_documents self _ language _ _ H). simpl.
  split; [done|]. unfold prompts_sent. rewrite omap_app. simpl. by rewrite app_nil_r.
Qed.

(** C8.  An exception with which a call of the retriever or of the model
    ends during a request is what [answer] raises: nothing inside [answer]
    catches it.  The [/ask] handler then raises the HTTP error 500 whose
    detail carries the message of that exception; the handler itself always
    ends with a response or with that HTTP error. *)
Theorem service_exception_becomes_http_500 (request : models.AskRequest) s e :
  let question := models.question request in
  let language := models.Language_value (models.language request) in
  (exists ev, ev ∈ events_of (RAGPipeline.answer self question language) s
              /\ event_raised ev = Some e) ->
  fst (RAGPipeline.answer self question language s) = Raise e /\
  fst (ask request self s)
  = HTTPException 500
      ("An internal error occurred while processing the request: " +:+ exc_str e).
Proof.
  intros question language (ev & Hin & Hraised).
  unfold ask, events_of in *. fold question language.
  destruct (RAGPipeline.vector_store self question k (fst s)) as [[docs|e1] w1] eqn:H1.
  - destruct (decide (docs = [])) as [->|Hne].
    { rewrite (answer_no_documents self _ language s _ H1) in Hin. simpl in Hin.
      rewrite drop_app_length in Hin.
      apply list_elem_of_singleton in Hin as ->. done. }
    destruct (RAGPipeline.vector_store self question k w1) as [[docs'|e2] w2] eqn:H2.
    + destruct (RAGPipeline.llm self
                  (format_template RAG_PROMPT_TEMPLATE
                     (chain_prompt_input question language
                        (RAGPipeline._format_context docs')))
                  w2) as [result w3] eqn:H3.
      rewrite (answer_generates self _ language s _ _ _ _ _ _ Hne H1 H2 H3) in Hin |- *.
      simpl in Hin |- *. rewrite drop_app_length in Hin.
      apply elem_of_cons in Hin as [->|Hin]; [done|].
      apply elem_of_cons in Hin as [->|Hin]; [done|].
      apply list_elem_of_singleton in Hin as ->.
      destruct result as [generated|e3]; [done|].
      simpl in Hraised. by injection Hraised as ->.
    + rewrite (answer_chain_retriever_raises self _ language s _ _ _ _ Hne H1 H2)
        in Hin |- *.
      simpl in Hin |- *. rewrite drop_app_length in Hin.
      apply elem_of_cons in Hin as [->|Hin]; [done|].
      apply list_elem_of_singleton in Hin as ->.
      simpl in Hraised. by injection Hraised as ->.
  - rewrite (answer_retriever_raises self _ language s _ _ H1) in Hin |- *.
    simpl in Hin |- *. rewrite drop_app_length in Hin.
    apply list_elem_of_singleton in Hin as ->.
    simpl in Hraised. by injection Hraised as ->.
Qed.

(** C9.  With a retriever whose result depends on the query alone, two calls
    of [answer] with the same question that both return give the same
    [sources], in whatever states and with whatever languages they run;
    nothing is said of the generated text. *)
Theorem same_question_same_sources question language1 language2 s1 s2
    result1 result2 s1' s2' :
  (forall query n w w',
      fst (RAGPipeline.vector_store self query n w)
      = fst (RAGPipeline.vector_store self query n w')) ->
  RAGPipeline.answer self question language1 s1 = (Return result1, s1') ->
  RAGPipeline.answer self question language2 s2 = (Return result2, s2') ->
  sources result1 = sources result2.
Proof.
  intros Hdet Ha1 Ha2.
  specialize (Hdet question k (fst s1) (fst s2)).
  destruct (RAGPipeline.vector_store self question k (fst s1)) as [r1 w1] eqn:H1.
  destruct (RAGPipeline.vector_store self question k (fst s2)) as [r2 w2] eqn:H2.
  simpl in Hdet. subst r2.
  destruct r1 as [docs|e].
  - destruct (decide (docs = [])) as [->|Hne].
    + rewrite (answer_no_documents self _ language1 _ _ H1) in Ha1.
      rewrite (answer_no_documents self _ language2 _ _ H2) in Ha2.
      injection Ha1 as <- _. by injection Ha2 as <- _.
    + rewrite (answer_returns_sources _ _ _ _ _ _ _ Hne H1 Ha1).
      by rewrite (answer_returns_sources _ _ _ _ _ _ _ Hne H2 Ha2).
  - by rewrite (answer_retriever_raises self _ language1 _ _ _ H1) in Ha1.
Qed.

End orchestrator.

(** *** The properties at the sample services *)

(** The example of the specification: two passages with the same url and
    different titles give one entry, with the title of the first. *)
Example format_sources_first_title_wins :
  RAGPipeline._format_sources [doc_a; doc_a_dup]
  = [ {| url := "https://u/a"; title := "A" |} ].
Proof. vm_compute. reflexivity. Qed.

Example format_sources_sample :
  RAGPipeline._format_sources sample_docs
  = [ {| url := "https://u/a"; title := "A" |};
      {| url := "https://u/b"; title := "No Title" |} ].
Proof. vm_compute. reflexivity. Qed.

Lemma sources_unique_in_first_occurrence_order_witness :
  let result := {| answer := "answer 2";
                   sources := [ {| url := "https://u/a"; title := "A" |};
                                {| url := "https://u/b"; title := "No Title" |} ] |} in
  NoDup (map url (sources result)) /\
  exists positions : list nat,
    StronglySorted lt positions /\
    (forall i, i ∈ positions <-> exists u, first_bearer sample_docs i u) /\
    Forall2 (taken_from sample_docs) positions (sources result).
Proof.
  apply (sources_unique_in_first_occurrence_order steady_pipeline "abc" "Polish" (0%nat, [])
           sample_docs 1%nat _
           (snd (RAGPipeline.answer steady_pipeline "abc" "Polish" (0%nat, [])))).
  - discriminate.
  - reflexivity.
  - vm_compute. reflexivity.
Defined.

Lemma answer_not_found_witness :
  fst (RAGPipeline.answer empty_pipeline "What are the admission deadlines?" "English"
         (0%nat, []))
  = Return {| answer := "Unfortunately, I could not find any relevant information in my knowledge base.";
              sources := [] |}.
Proof.
  apply (answer_not_found empty_pipeline "What are the admission deadlines?" "English"
           (0%nat, []) 1%nat).
  reflexivity.
Defined.

Lemma not_found_never_invokes_llm_witness :
  snd (RAGPipeline.answer empty_pipeline "abc" "Polish" (0%nat, []))
  = (1%nat, [] ++ [RetrieverInvoke "abc" 5 (Return [])]) /\
  prompts_sent (snd (snd (RAGPipeline.answer empty_pipeline "abc" "Polish" (0%nat, []))))
  = prompts_sent [].
Proof.
  apply (not_found_never_invokes_llm empty_pipeline "abc" "Polish" (0%nat, []) 1%nat).
  reflexivity.
Defined.

Lemma service_exception_becomes_http_500_witness :
  fst (RAGPipeline.answer failing_llm_pipeline "abc" "Polish" (0%nat, []))
  = Raise connection_error /\
  fst (ask {| models.question := "abc"; models.language := models.Polish |}
         failing_llm_pipeline (0%nat, []))
  = HTTPException 500
      "An internal error occurred while processing the request: Connection error.".
Proof.
  apply (service_exception_becomes_http_500 failing_llm_pipeline
           {| models.question := "abc"; models.language := models.Polish |} (0%nat, [])
           connection_error).
  eexists. split.
  - match goal with
    | |- _ ∈ ?tr => let tr' := eval vm_compute in tr in change tr with tr'
    end.
    do 2 apply list_elem_of_further. apply list_elem_of_here.
  - reflexivity.
Defined.

Lemma same_question_same_sources_witness :
  sources {| answer := "answer 2";
             sources := [ {| url := "https://u/a"; title := "A" |};
                          {| url := "https://u/b"; title := "No Title" |} ] |}
  = sources {| answer := "answer 5";
               sources := [ {| url := "https://u/a"; title := "A" |};
                            {| url := "https://u/b"; title := "No Title" |} ] |}.
Proof.
  pose (s1 := snd (RAGPipeline.answer steady_pipeline "abc" "Polish" (0%nat, []))).
  apply (same_question_same_sources steady_pipeline "abc" "Polish" "English"
           (0%nat, []) s1 _ _ s1 (snd (RAGPipeline.answer steady_pipeline "abc" "English" s1))).
  - reflexivity.
  - vm_compute. reflexivity.
  - vm_compute. reflexivity.
Defined.

(** The generated text is allowed to differ between the two calls. *)
Example same_question_answers_may_differ :
  let first := RAGPipeline.answer steady_pipeline "abc" "Polish" (0%nat, []) in
  let second := RAGPipeline.answer steady_pipeline "abc" "Polish" (snd first) in
  (answer <$> (match fst first with Return r => Some r | Raise _ => None end)) = Some "answer 2" /\
  (answer <$> (match fst second with Return r => Some r | Raise _ => None end)) = Some "answer 5".
Proof. vm_compute. split; reflexivity. Qed.

(** ** The prompt the chain sends *)

Section prompt_facts.

Lemma string_length_app (s1 s2 : string) :
  String.length (s1 +:+ s2) = (String.length s1 + String.length s2)%nat.
Proof.
  induction s1 as [|a s1 IH]; [done|].
  change (String a s1 +:+ s2) with (String a (s1 +:+ s2)). simpl. by rewrite IH.
Qed.

Lemma RAG_PROMPT_TEMPLATE_fragments :
  parse_template false EmptyString RAG_PROMPT_TEMPLATE
  = [Lit TEMPLATE_HEAD; Field "language"; Lit TEMPLATE_BEFORE_CONTEXT; Field "context";
     Lit TEMPLATE_BEFORE_QUESTION; Field "question"; Lit NL].
Proof. vm_compute. reflexivity. Qed.

(** The template with its three slots filled. *)
Lemma format_template_slots (kwargs : list (string * pyval)) (language context question : pyval) :
  dict_get "language" kwargs = Some language ->
  dict_get "context" kwargs = Some context ->
  dict_get "question" kwargs = Some question ->
  format_template RAG_PROMPT_TEMPLATE kwargs
  = TEMPLATE_HEAD +:+ py_str language +:+ TEMPLATE_BEFORE_CONTEXT +:+ py_str context +:+
    TEMPLATE_BEFORE_QUESTION +:+ py_str question +:+ NL +:+ EmptyString.
Proof.
  intros Hl Hc Hq. unfold format_template. rewrite RAG_PROMPT_TEMPLATE_fragments.
  unfold map, render_fragment, concat_str. by rewrite Hl, Hc, Hq.
Qed.

Lemma repr_char_length (quote : nat) (a : ascii) :
  (1 <= String.length (repr_char quote a))%nat.
Proof.
  unfold repr_char.
  repeat match goal with |- context [if ?b then _ else _] => destruct b end;
    cbv [String.length String.append BACKSLASH chr]; lia.
Qed.

Lemma repr_chars_length (quote : nat) (s : string) :
  (String.length s <= String.length (repr_chars quote s))%nat.
Proof.
  induction s as [|a s IH]; [done|].
  simpl. rewrite string_length_app. pose proof (repr_char_length quote a). lia.
Qed.

(** [repr] of a string is at least two characters longer than the string. *)
Lemma py_repr_str_length (s : string) :
  (String.length s + 2 <= String.length (py_repr_str s))%nat.
Proof.
  unfold py_repr_str. rewrite !string_length_app.
  pose proof (repr_chars_length (repr_quote s) s). unfold chr. simpl. lia.
Qed.

(** The printed input dictionary is longer than the question and the
    language together. *)
Lemma input_dict_repr_length (question language : string) :
  (String.length question + String.length language
   < String.length (py_str (py_of_dict [("question", question); ("language", language)])))%nat.
Proof.
  cbv [py_str py_of_dict map fst snd py_repr join].
  rewrite !string_length_app.
  pose proof (py_repr_str_length question). pose proof (py_repr_str_length language).
  lia.
Qed.

(** No question, language and context make the prompt of the chain the
    prompt the specification describes. *)
Lemma chain_prompt_is_not_spec_compose (question language context : string) :
  format_template RAG_PROMPT_TEMPLATE (chain_prompt_input question language context)
  <> spec_compose question language context.
Proof.
  unfold spec_compose.
  rewrite (format_template_slots (chain_prompt_input question language context)
             _ _ _ eq_refl eq_refl eq_refl).
  rewrite (format_template_slots [("question", PyStr question); ("language", PyStr language);
                                  ("context", PyStr context)]
             _ _ _ eq_refl eq_refl eq_refl).
  pose proof (input_dict_repr_length question language) as Hlen.
  set (printed := py_str (py_of_dict [("question", question); ("language", language)])) in *.
  clearbody printed. cbn [py_str].
  intros Heq. apply (f_equal String.length) in Heq.
  rewrite !string_length_app in Heq.
  lia.
Qed.

Lemma string_app_assoc (s1 s2 s3 : string) : (s1 +:+ s2) +:+ s3 = s1 +:+ s2 +:+ s3.
Proof.
  induction s1 as [|a s1 IH]; [done|].
  change ((String a s1 +:+ s2) +:+ s3) with (String a ((s1 +:+ s2) +:+ s3)).
  by rewrite IH.
Qed.

(** What [str] gives for the input dictionary of the chain. *)
Lemma input_dict_printed (question language : string) :
  py_str (py_of_dict [("question", question); ("language", language)])
  = "{'question': " +:+ py_repr_str question +:+ ", 'language': " +:+
    py_repr_str language +:+ "}".
Proof.
  cbv [py_str py_of_dict map fst snd py_repr join].
  change (py_repr_str "question") with "'question'".
  change (py_repr_str "language") with "'language'".
  rewrite !string_app_assoc. reflexivity.
Qed.

(** The prompt of the chain, with the printed dictionary written out. *)
Lemma chain_prompt_printed (question language context : string) :
  let printed := "{'question': " +:+ py_repr_str question +:+ ", 'language': " +:+
                 py_repr_str language +:+ "}" in
  format_template RAG_PROMPT_TEMPLATE (chain_prompt_input question language context)
  = format_template RAG_PROMPT_TEMPLATE
      [("context", PyStr context); ("question", PyStr printed); ("language", PyStr printed)].
Proof.
  intros printed.
  rewrite (format_template_slots (chain_prompt_input question language context)
             _ _ _ eq_refl eq_refl eq_refl).
  rewrite (format_template_slots [("context", PyStr context); ("question", PyStr printed);
                                  ("language", PyStr printed)]
             _ _ _ eq_refl eq_refl eq_refl).
  by rewrite input_dict_printed.
Qed.

End prompt_facts.

(** ** The prompt and the context of a request *)

Section generation.
Context {W : Type} (self : RAGPipeline.t W).
Implicit Types (question language : string) (s : RAGPipeline.state W).

Local Abbreviation k := (RAGPipeline.top_k self).

(** A request that gets passages at both retriever calls sends one prompt. *)
Lemma answer_prompts_sent question language s docs w1 docs' w2 :
  docs <> [] ->
  RAGPipeline.vector_store self question k (fst s) = (Return docs, w1) ->
  RAGPipeline.vector_store self question k w1 = (Return docs', w2) ->
  prompts_sent (snd (snd (RAGPipeline.answer self question language s)))
  = prompts_sent (snd s)
    ++ [format_template RAG_PROMPT_TEMPLATE
          (chain_prompt_input question language (RAGPipeline._format_context docs'))].
Proof.
  intros Hne H1 H2.
  destruct (RAGPipeline.llm self
              (format_template RAG_PROMPT_TEMPLATE
                 (chain_prompt_input question language (RAGPipeline._format_context docs')))
              w2) as [result w3] eqn:H3.
  rewrite (answer_generates self _ language _ _ _ _ _ _ _ Hne H1 H2 H3). simpl.
  unfold prompts_sent. by rewrite omap_app.
Qed.

(** C3, as the code behaves.  In a request with a non-empty retrieval result
    the one prompt sent to the generator is the template whose [context]
    slot holds the formatted context, and whose [question] slot and
    [language] slot both hold the printed input dictionary
    [{'question': ..., 'language': ...}]; it is never the prompt
    [compose(question, language, context)] of the specification. *)
Theorem generator_prompt_slots_hold_the_input_dictionary question language s
    docs w1 docs' w2 :
  docs <> [] ->
  RAGPipeline.vector_store self question k (fst s) = (Return docs, w1) ->
  RAGPipeline.vector_store self question k w1 = (Return docs', w2) ->
  let context := RAGPipeline._format_context docs' in
  let printed := "{'question': " +:+ py_repr_str question +:+ ", 'language': " +:+
                 py_repr_str language +:+ "}" in
  let p := format_template RAG_PROMPT_TEMPLATE
             [("context", PyStr context); ("question", PyStr printed);
              ("language", PyStr printed)] in
  prompts_sent (snd (snd (RAGPipeline.answer self question language s)))
  = prompts_sent (snd s) ++ [p] /\
  p <> spec_compose question language context.
Proof.
  intros Hne H1 H2 context printed p.
  rewrite (answer_prompts_sent _ language _ _ _ _ _ Hne H1 H2).
  fold context. unfold p, printed. rewrite <- chain_prompt_printed.
  split; [done|]. apply chain_prompt_is_not_spec_compose.
Qed.

(** In a request with a non-empty retrieval result, the context in the
    prompt sent to the generator is made of the page contents of the passages
    that the chain's own retriever call returns (a second call, with the same
    question), joined in their order with two newlines, three hyphens, two
    newlines; the sources are those of the passages of the first call. *)
Theorem context_joins_the_passages_of_the_chain_retrieval question language s
    docs w1 docs' w2 :
  docs <> [] ->
  RAGPipeline.vector_store self question k (fst s) = (Return docs, w1) ->
  RAGPipeline.vector_store self question k w1 = (Return docs', w2) ->
  let context := join (NL +:+ NL +:+ "---" +:+ NL +:+ NL) (map page_content docs') in
  prompts_sent (snd (snd (RAGPipeline.answer self question language s)))
  = prompts_sent (snd s)
    ++ [format_template RAG_PROMPT_TEMPLATE (chain_prompt_input question language context)] /\
  forall result s',
    RAGPipeline.answer self question language s = (Return result, s') ->
    sources result = RAGPipeline._format_sources docs.
Proof.
  intros Hne H1 H2 context. split.
  - by rewrite (answer_prompts_sent _ language _ _ _ _ _ Hne H1 H2).
  - intros result s' Hanswer. by eapply answer_returns_sources.
Qed.

(** With a retriever whose result depends on the query alone, the two calls
    of a request return the same passages, and the context is that of the
    passages the sources are collected from. *)
Lemma context_is_of_the_source_passages_when_deterministic :
  (forall query n w w',
      fst (RAGPipeline.vector_store self query n w)
      = fst (RAGPipeline.vector_store self query n w')) ->
  context_is_of_the_source_passages self.
Proof.
  intros Hdet question language w docs w1 Hne H1 p Hp.
  specialize (Hdet question k w w1). rewrite H1 in Hdet. simpl in Hdet.
  destruct (RAGPipeline.vector_store self question k w1) as [r2 w2] eqn:H2.
  simpl in Hdet. subst r2.
  rewrite (answer_prompts_sent question language (w, []) docs w1 docs w2 Hne H1 H2) in Hp.
  simpl in Hp. by apply list_elem_of_singleton in Hp.
Qed.

End generation.

(** *** At the sample services *)

Lemma generator_prompt_slots_hold_the_input_dictionary_witness :
  prompts_sent (snd (snd (RAGPipeline.answer steady_pipeline "abc" "Polish" (0%nat, []))))
  = prompts_sent []
    ++ [format_template RAG_PROMPT_TEMPLATE
          [("context", PyStr (RAGPipeline._format_context sample_docs));
           ("question",
            PyStr ("{'question': " +:+ py_repr_str "abc" +:+ ", 'language': " +:+
                   py_repr_str "Polish" +:+ "}"));
           ("language",
            PyStr ("{'question': " +:+ py_repr_str "abc" +:+ ", 'language': " +:+
                   py_repr_str "Polish" +:+ "}"))]] /\
  format_template RAG_PROMPT_TEMPLATE
    [("context", PyStr (RAGPipeline._format_context sample_docs));
     ("question",
      PyStr ("{'question': " +:+ py_repr_str "abc" +:+ ", 'language': " +:+
             py_repr_str "Polish" +:+ "}"));
     ("language",
      PyStr ("{'question': " +:+ py_repr_str "abc" +:+ ", 'language': " +:+
             py_repr_str "Polish" +:+ "}"))]
  <> spec_compose "abc" "Polish" (RAGPipeline._format_context sample_docs).
Proof.
  apply (generator_prompt_slots_hold_the_input_dictionary steady_pipeline "abc" "Polish"
           (0%nat, []) sample_docs 1%nat sample_docs 2%nat).
  - discriminate.
  - reflexivity.
  - reflexivity.
Defined.

(** The prompt of the sample request, written out. *)
Example sample_prompt_text :
  prompts_sent (snd (snd (RAGPipeline.answer steady_pipeline "abc" "Polish" (0%nat, []))))
  = [ TEMPLATE_HEAD +:+ "{'question': 'abc', 'language': 'Polish'}" +:+ NL +:+
      NL +:+
      "Context:" +:+ NL +:+
      "alpha" +:+ CONTEXT_SEPARATOR +:+ "orphan" +:+ CONTEXT_SEPARATOR +:+ "alpha again" +:+
      CONTEXT_SEPARATOR +:+ "blank" +:+ CONTEXT_SEPARATOR +:+ "beta" +:+ NL +:+
      NL +:+
      "Question:" +:+ NL +:+
      "{'question': 'abc', 'language': 'Polish'}" +:+ NL ].
Proof. vm_compute. reflexivity. Qed.

(** When the index changes between the two retriever calls of a request,
    the sources are those of the first result and the context is that of the
    second. *)
Lemma context_is_of_the_source_passages_fails :
  ~ context_is_of_the_source_passages drifting_pipeline.
Proof.
  intros Hclaim.
  specialize (Hclaim "abc" "Polish" 0%nat [doc_a] 1%nat).
  specialize (Hclaim ltac:(discriminate) eq_refl).
  specialize (Hclaim (format_template RAG_PROMPT_TEMPLATE
                        (chain_prompt_input "abc" "Polish"
                           (join CONTEXT_SEPARATOR (map page_content [doc_b]))))).
  assert (Hneq : String.eqb
            (format_template RAG_PROMPT_TEMPLATE
               (chain_prompt_input "abc" "Polish"
                  (join CONTEXT_SEPARATOR (map page_content [doc_b]))))
            (format_template RAG_PROMPT_TEMPLATE
               (chain_prompt_input "abc" "Polish"
                  (join CONTEXT_SEPARATOR (map page_content [doc_a])))) = false)
    by (vm_compute; reflexivity).
  apply String.eqb_neq in Hneq. apply Hneq, Hclaim.
  vm_compute. apply list_elem_of_here.
Qed.

Example drifting_sources :
  fst (RAGPipeline.answer drifting_pipeline "abc" "Polish" (0%nat, []))
  = Return {| answer := "ok"; sources := [ {| url := "https://u/a"; title := "A" |} ] |}.
Proof. vm_compute. reflexivity. Qed.

Lemma context_joins_the_passages_of_the_chain_retrieval_witness :
  prompts_sent (snd (snd (RAGPipeline.answer drifting_pipeline "abc" "Polish" (0%nat, []))))
  = prompts_sent []
    ++ [format_template RAG_PROMPT_TEMPLATE
          (chain_prompt_input "abc" "Polish"
             (join (NL +:+ NL +:+ "---" +:+ NL +:+ NL) (map page_content [doc_b])))] /\
  forall result s',
    RAGPipeline.answer drifting_pipeline "abc" "Polish" (0%nat, []) = (Return result, s') ->
    sources result = RAGPipeline._format_sources [doc_a].
Proof.
  apply (context_joins_the_passages_of_the_chain_retrieval drifting_pipeline "abc" "Polish"
           (0%nat, []) [doc_a] 1%nat [doc_b] 2%nat).
  - discriminate.
  - reflexivity.
  - reflexivity.
Defined.

(** C4, as the code behaves.  With an index that is rebuilt between the two
    retriever calls of a request, [answer] returns the source of the passage
    of the first call, while the context in the prompt sent to the generator
    is made of the two passages of the second call: the sources are not the
    passages the answer was composed from. *)
Theorem sources_are_not_the_passages_of_the_context :
  RAGPipeline.answer reindexed_pipeline "abc" "Polish" (0%nat, [])
  = (Return {| answer := "ok";
               sources := [ {| url := "https://u/a"; title := "A" |} ] |},
     (3%nat,
      [ RetrieverInvoke "abc" 5 (Return [doc_a]);
        RetrieverInvoke "abc" 5 (Return [doc_b; doc_no_url]);
        LlmInvoke
          (TEMPLATE_HEAD +:+ "{'question': 'abc', 'language': 'Polish'}" +:+ NL +:+
           NL +:+
           "Context:" +:+ NL +:+
           "beta" +:+ NL +:+
           NL +:+
           "---" +:+ NL +:+
           NL +:+
           "orphan" +:+ NL +:+
           NL +:+
           "Question:" +:+ NL +:+
           "{'question': 'abc', 'language': 'Polish'}" +:+ NL)
          (Return "ok") ])).
Proof. vm_compute. reflexivity. Qed.

(** ** Properties of the document loader *)

Section loader_facts.
Variable json_loads : string -> outcome pyval.
Variable fs_open : string -> outcome (list string).
Implicit Types (line file_path : string) (log : list loader.log_record).

Lemma prepare_line_object line items :
  json_loads line = Return (PyDict items) ->
  loader.prepare_line json_loads line = Return (spec_passage items).
Proof. intros H. unfold loader.prepare_line. by rewrite H. Qed.

(** A line whose JSON value is not an object ends the inner [try] with an
    [AttributeError]. *)
Lemma prepare_line_not_object line v :
  json_loads line = Return v ->
  (forall items, v <> PyDict items) ->
  loader.prepare_line json_loads line
  = Raise (Exc AttributeError ("'" +:+ py_type_name v +:+ "' object has no attribute 'get'")).
Proof.
  intros H Hv. unfold loader.prepare_line. rewrite H.
  destruct v; try reflexivity. by destruct (Hv items).
Qed.

Lemma prepare_line_raises line e :
  json_loads line = Raise e -> loader.prepare_line json_loads line = Raise e.
Proof. intros H. unfold loader.prepare_line. by rewrite H. Qed.

(** The loop over lines that are records or not JSON: the records give
    their passages in order, the other lines a warning each. *)
Lemma for_lines_tolerated file_path lines readings :
  Forall2 (reads_as json_loads) lines readings ->
  forall i documents log,
    loader.for_lines json_loads file_path i lines documents log
    = (Return (documents ++ map spec_passage (objects_of readings)),
       log ++ skip_warnings file_path i readings).
Proof.
  induction 1 as [|line r lines readings Hline _ IH]; intros i documents log.
  - simpl. unfold ret. by rewrite !app_nil_r.
  - simpl loader.for_lines. unfold bind, loader.try_except, loader.lift, ret.
    destruct r as [items|].
    + rewrite (prepare_line_object _ _ Hline). rewrite IH. simpl.
      by rewrite <- app_assoc.
    + destruct Hline as [msg Hline]. rewrite (prepare_line_raises _ _ Hline). simpl.
      unfold bind, loader.logger, ret. rewrite IH. by rewrite <- app_assoc.
Qed.

(** The loop reaching a line whose JSON value is not an object: the
    [AttributeError] leaves the loop. *)
Lemma for_lines_not_object file_path lines readings line v rest :
  Forall2 (reads_as json_loads) lines readings ->
  json_loads line = Return v ->
  (forall items, v <> PyDict items) ->
  forall i documents log,
    loader.for_lines json_loads file_path i (lines ++ line :: rest) documents log
    = (Raise (Exc AttributeError
                ("'" +:+ py_type_name v +:+ "' object has no attribute 'get'")),
       log ++ skip_warnings file_path i readings).
Proof.
  intros Hlines Hline Hv.
  induction Hlines as [|line0 r lines readings Hline0 _ IH]; intros i documents log.
  - simpl. unfold bind, loader.try_except, loader.lift, ret.
    rewrite (prepare_line_not_object _ _ Hline Hv). simpl. by rewrite app_nil_r.
  - simpl loader.for_lines. unfold bind, loader.try_except, loader.lift, ret.
    destruct r as [items|].
    + rewrite (prepare_line_object _ _ Hline0). by rewrite IH.
    + destruct Hline0 as [msg Hline0]. rewrite (prepare_line_raises _ _ Hline0). simpl.
      unfold bind, loader.logger, ret. rewrite IH. by rewrite <- app_assoc.
Qed.

(** For a file whose lines in the range are JSON objects or not JSON at
    all, the load returns, in order, one passage for every object: its text
    is [Page Title: {title}], [H1 Header: {h1}], an empty line and the body
    text, a missing title or h1 standing as [N/A] and a missing text as the
    empty string; its metadata is the source (the url, or the empty string),
    the title (or [No Title]) and the content hash (or the empty string). *)
Theorem prepared_passage_of_each_record file_path start stop lines readings log :
  fs_open file_path = Return lines ->
  Forall2 (reads_as json_loads) (loader.islice lines start stop) readings ->
  fst (loader.load_and_prepare_documents json_loads fs_open file_path start stop log)
  = Return
      (map (fun items =>
              {| loader.page_content :=
                   "Page Title: " +:+ py_str (member_or items "title" "N/A") +:+ NL +:+
                   "H1 Header: " +:+ py_str (member_or items "h1" "N/A") +:+ NL +:+ NL +:+
                   py_str (member_or items "text" EmptyString);
                 loader.metadata :=
                   [("source", member_or items "url" EmptyString);
                    ("title", member_or items "title" "No Title");
                    ("content_hash", member_or items "content_hash" EmptyString)] |})
           (objects_of readings)).
Proof.
  intros Hopen Hlines.
  unfold loader.load_and_prepare_documents, bind, loader.try_except, loader.lift,
    loader.logger, ret.
  rewrite Hopen. rewrite (for_lines_tolerated _ _ _ Hlines). simpl. reflexivity.
Qed.

(** C7.  For a path at which [open] finds no file, the load returns the
    empty list and raises nothing; the log gains the opening message and one
    error. *)
Theorem missing_file_gives_no_documents file_path start stop log msg :
  fs_open file_path = Raise (Exc FileNotFoundError msg) ->
  loader.load_and_prepare_documents json_loads fs_open file_path start stop log
  = (Return [],
     log ++ [loading_message file_path start stop;
             (loader.ERROR, "Data file not found at path: " +:+ file_path)]).
Proof.
  intros Hopen.
  unfold loader.load_and_prepare_documents, bind, loader.try_except, loader.lift,
    loader.logger, ret.
  rewrite Hopen. simpl. by rewrite <- app_assoc.
Qed.

(** A line in the range whose JSON value is not an object aborts the whole
    load: the [AttributeError] is raised to the caller. *)
Lemma load_aborts_on_a_line_that_is_not_an_object file_path start stop lines
    before readings line v rest log :
  fs_open file_path = Return lines ->
  loader.islice lines start stop = before ++ line :: rest ->
  Forall2 (reads_as json_loads) before readings ->
  json_loads line = Return v ->
  (forall items, v <> PyDict items) ->
  fst (loader.load_and_prepare_documents json_loads fs_open file_path start stop log)
  = Raise (Exc AttributeError ("'" +:+ py_type_name v +:+ "' object has no attribute 'get'")).
Proof.
  intros Hopen Hslice Hbefore Hline Hv.
  unfold loader.load_and_prepare_documents, bind, loader.try_except, loader.lift,
    loader.logger, ret.
  rewrite Hopen, Hslice.
  by rewrite (for_lines_not_object _ _ _ _ _ _ Hbefore Hline Hv).
Qed.

End loader_facts.

(** *** At the sample file system *)

(** The example of the specification: one record and one line that is not
    JSON give one passage and one warning. *)
Example one_record_and_one_malformed_line :
  loader.load_and_prepare_documents sample_json_loads sample_fs_open "data/content.jsonl"
    0 None []
  = (Return
       [ {| loader.page_content :=
              "Page Title: Admissions" +:+ NL +:+ "H1 Header: N/A" +:+ NL +:+ NL +:+
              "Deadline is July 15th.";
            loader.metadata :=
              [("source", PyStr "https://u/a"); ("title", PyStr "Admissions");
               ("content_hash", PyStr EmptyString)] |} ],
     [ (loader.INFO, "Loading documents from 'data/content.jsonl' [lines 0-end]...");
       (loader.WARNING, "Skipping malformed JSON line 2 in 'data/content.jsonl'.");
       (loader.INFO, "Successfully loaded and prepared 1 documents.") ]).
Proof. vm_compute. reflexivity. Qed.

(** C5, as the code behaves.  A file with a record, a line holding the JSON
    array [[]] and another record: the array line is not skipped; the load
    raises [AttributeError] and returns no passage at all. *)
Theorem load_aborts_on_array_line :
  loader.load_and_prepare_documents sample_json_loads sample_fs_open "data/mixed.jsonl"
    0 None []
  = (Raise (Exc AttributeError "'list' object has no attribute 'get'"),
     [ (loader.INFO, "Loading documents from 'data/mixed.jsonl' [lines 0-end]...") ]).
Proof. vm_compute. reflexivity. Qed.

Lemma prepared_passage_of_each_record_witness :
  fst (loader.load_and_prepare_documents sample_json_loads sample_fs_open
         "data/content.jsonl" 0 None [])
  = Return
      (map (fun items =>
              {| loader.page_content :=
                   "Page Title: " +:+ py_str (member_or items "title" "N/A") +:+ NL +:+
                   "H1 Header: " +:+ py_str (member_or items "h1" "N/A") +:+ NL +:+ NL +:+
                   py_str (member_or items "text" EmptyString);
                 loader.metadata :=
                   [("source", member_or items "url" EmptyString);
                    ("title", member_or items "title" "No Title");
                    ("content_hash", member_or items "content_hash" EmptyString)] |})
           (objects_of
              [JsonObject [("title", PyStr "Admissions");
                           ("text", PyStr "Deadline is July 15th.");
                           ("url", PyStr "https://u/a")];
               NotJson])).
Proof.
  apply (prepared_passage_of_each_record sample_json_loads sample_fs_open
           "data/content.jsonl" 0 None [line_record; line_garbage]).
  - reflexivity.
  - repeat constructor. eexists. reflexivity.
Defined.

Lemma missing_file_gives_no_documents_witness :
  loader.load_and_prepare_documents sample_json_loads sample_fs_open "data/absent.jsonl"
    0 (Some 100%nat) []
  = (Return [],
     [] ++ [loading_message "data/absent.jsonl" 0 (Some 100%nat);
            (loader.ERROR, "Data file not found at path: " +:+ "data/absent.jsonl")]).
Proof.
  apply (missing_file_gives_no_documents sample_json_loads sample_fs_open
           "data/absent.jsonl" 0 (Some 100%nat) []
           "[Errno 2] No such file or directory: 'data/absent.jsonl'").
  reflexivity.
Defined.

(** C6, as the code behaves.  The two records of this file are well formed,
    and the line of each, prepared on its own, gives the passage the
    specification describes; but the load of the file, which holds the JSON
    array [[]] between them, raises [AttributeError] and emits no passage for
    either record. *)
Theorem well_formed_records_give_no_passage_when_the_load_aborts :
  sample_fs_open "data/mixed.jsonl" = Return [line_record; line_array; line_record] /\
  loader.prepare_line sample_json_loads line_record
  = Return {| loader.page_content :=
                "Page Title: Admissions" +:+ NL +:+ "H1 Header: N/A" +:+ NL +:+ NL +:+
                "Deadline is July 15th.";
              loader.metadata :=
                [("source", PyStr "https://u/a"); ("title", PyStr "Admissions");
                 ("content_hash", PyStr EmptyString)] |} /\
  fst (loader.load_and_prepare_documents sample_json_loads sample_fs_open
         "data/mixed.jsonl" 0 None [])
  = Raise (Exc AttributeError "'list' object has no attribute 'get'").
Proof. vm_compute. done. Qed.

(** ** More on the document loader *)

Section loader_more.
Variable json_loads : string -> outcome pyval.
Variable fs_open : string -> outcome (list string).
Implicit Types (line file_path : string) (log : list loader.log_record).

(** The closing record of the log of a load that returns. *)
Local Abbreviation loaded_message n :=
  (loader.INFO, "Successfully loaded and prepared " +:+ pretty n +:+ " documents.").

(** A load over lines that are records or not JSON, in full. *)
Lemma load_tolerated_run file_path start stop lines readings log :
  fs_open file_path = Return lines ->
  Forall2 (reads_as json_loads) (loader.islice lines start stop) readings ->
  loader.load_and_prepare_documents json_loads fs_open file_path start stop log
  = (Return (map spec_passage (objects_of readings)),
     log ++ [loading_message file_path start stop]
         ++ skip_warnings file_path start readings
         ++ [loaded_message (length (objects_of readings))]).
Proof.
  intros Hopen Hlines.
  unfold loader.load_and_prepare_documents, bind, loader.try_except, loader.lift,
    loader.logger, ret.
  rewrite Hopen. rewrite (for_lines_tolerated _ _ _ _ Hlines). simpl.
  rewrite length_map. by rewrite <- !app_assoc.
Qed.

Lemma skip_warnings_count file_path i readings :
  (length (objects_of readings) + length (skip_warnings file_path i readings)
   = length readings)%nat.
Proof.
  revert i. induction readings as [|[items|] readings IH]; intros i; simpl; [done|..].
  - by rewrite IH.
  - rewrite <- (IH (S i)). lia.
Qed.

(** X1.  For a file whose lines in the range are JSON objects or not JSON,
    the log of the load is the opening record, one warning for every line
    that is not JSON (giving its line number in the file, counted from 1),
    and the closing record with the number of passages returned; passages
    and warnings together are as many as the lines of the range. *)
Theorem load_log_counts_passages_and_skipped_lines file_path start stop lines readings log :
  fs_open file_path = Return lines ->
  Forall2 (reads_as json_loads) (loader.islice lines start stop) readings ->
  exists documents warnings,
    loader.load_and_prepare_documents json_loads fs_open file_path start stop log
    = (Return documents,
       log ++ [loading_message file_path start stop] ++ warnings
           ++ [(loader.INFO,
                "Successfully loaded and prepared " +:+ pretty (length documents) +:+
                " documents.")]) /\
    warnings = skip_warnings file_path start readings /\
    (length documents + length warnings = length (loader.islice lines start stop))%nat.
Proof.
  intros Hopen Hlines.
  exists (map spec_passage (objects_of readings)), (skip_warnings file_path start readings).
  split_and!; [|done|].
  - rewrite (load_tolerated_run _ _ _ _ _ _ Hopen Hlines). by rewrite length_map.
  - rewrite length_map, skip_warnings_count. symmetry. by eapply Forall2_length.
Qed.

Lemma islice_split {A : Type} (l : list A) (a b : nat) (stop : option nat) :
  (a <= b)%nat ->
  (forall c, stop = Some c -> (b <= c)%nat) ->
  loader.islice l a stop = loader.islice l a (Some b) ++ loader.islice l b stop.
Proof.
  intros Hab Hbc. unfold loader.islice.
  replace (drop b l) with (drop (b - a) (drop a l))
    by (rewrite drop_drop; f_equal; lia).
  destruct stop as [c|].
  - specialize (Hbc c eq_refl). rewrite take_take_drop. f_equal. lia.
  - by rewrite take_drop.
Qed.

(** X2.  Loading in two adjacent ranges gives the passages of the whole
    range: for [a <= b] (and [b] not beyond the end of the range), the
    passages of the lines [a, b) followed by those of the lines from [b] on
    are the passages of the lines from [a] on, when the lines of the range
    are JSON objects or not JSON. *)
Theorem load_in_two_batches file_path a b stop lines readings log1 log2 log :
  (a <= b)%nat ->
  (forall c, stop = Some c -> (b <= c)%nat) ->
  fs_open file_path = Return lines ->
  Forall2 (reads_as json_loads) (loader.islice lines a stop) readings ->
  exists first second,
    fst (loader.load_and_prepare_documents json_loads fs_open file_path a (Some b) log1)
    = Return first /\
    fst (loader.load_and_prepare_documents json_loads fs_open file_path b stop log2)
    = Return second /\
    fst (loader.load_and_prepare_documents json_loads fs_open file_path a stop log)
    = Return (first ++ second).
Proof.
  intros Hab Hbc Hopen Hlines.
  rewrite (islice_split lines a b stop Hab Hbc) in Hlines.
  apply Forall2_app_inv_l in Hlines as (r1 & r2 & H1 & H2 & ->).
  exists (map spec_passage (objects_of r1)), (map spec_passage (objects_of r2)).
  rewrite (load_tolerated_run _ _ _ _ _ _ Hopen H1).
  rewrite (load_tolerated_run _ _ _ _ _ _ Hopen H2).
  erewrite load_tolerated_run; [|done|].
  - simpl. split_and!; [done..|]. unfold objects_of. by rewrite omap_app, map_app.
  - rewrite (islice_split lines a b stop Hab Hbc). by apply Forall2_app.
Qed.

(** X3.  Only [FileNotFoundError] is turned into an empty result: any other
    exception of [open] (a permission error, a directory in place of the
    file) is raised to the caller, after the opening record of the log. *)
Theorem load_raises_other_open_errors file_path start stop log e :
  fs_open file_path = Raise e ->
  exc_type e <> FileNotFoundError ->
  loader.load_and_prepare_documents json_loads fs_open file_path start stop log
  = (Raise e, log ++ [loading_message file_path start stop]).
Proof.
  intros Hopen Hclass.
  unfold loader.load_and_prepare_documents, bind, loader.try_except, loader.lift,
    loader.logger, ret.
  rewrite Hopen. by destruct (exc_type e).
Qed.

(** X4.  For a file that is opened and read without error, a range that
    holds no line (a [stop] not above [start], or a [start] at or beyond the
    end of the file) gives the empty list and the closing record for 0
    documents.  No line is handed to [json.loads]: lines that would end a
    load that reaches them do not matter here. *)
Theorem load_of_empty_range file_path start stop lines log :
  fs_open file_path = Return lines ->
  (exists c, stop = Some c /\ (c <= start)%nat) \/ (length lines <= start)%nat ->
  loader.load_and_prepare_documents json_loads fs_open file_path start stop log
  = (Return [],
     log ++ [loading_message file_path start stop;
             (loader.INFO, "Successfully loaded and prepared 0 documents.")]).
Proof.
  intros Hopen Hrange.
  assert (Hempty : loader.islice lines start stop = []).
  { unfold loader.islice. destruct Hrange as [(c & -> & Hc)|Hlen].
    - by replace (c - start)%nat with 0%nat by lia.
    - rewrite (drop_ge _ _ Hlen). destruct stop; [apply take_nil | done]. }
  rewrite (load_tolerated_run file_path start stop lines [] log Hopen).
  - reflexivity.
  - rewrite Hempty. constructor.
Qed.

(** The loop reaching a line on which the inner [try] ends with an exception
    that none of its [except] clauses names. *)
Lemma for_lines_aborts file_path lines readings line e rest :
  Forall2 (reads_as json_loads) lines readings ->
  loader.prepare_line json_loads line = Raise e ->
  exc_type e <> JSONDecodeError -> exc_type e <> TypeError -> exc_type e <> KeyError ->
  forall i documents log,
    loader.for_lines json_loads file_path i (lines ++ line :: rest) documents log
    = (Raise e, log ++ skip_warnings file_path i readings).
Proof.
  intros Hlines Hline Hj Ht Hk.
  induction Hlines as [|line0 r lines readings Hline0 _ IH]; intros i documents log.
  - simpl. unfold bind, loader.try_except, loader.lift, ret. rewrite Hline.
    unfold loader.line_handler. rewrite app_nil_r. by destruct (exc_type e).
  - simpl loader.for_lines. unfold bind, loader.try_except, loader.lift, ret.
    destruct r as [items|].
    + rewrite (prepare_line_object _ _ _ Hline0). by rewrite IH.
    + destruct Hline0 as [msg Hline0]. rewrite (prepare_line_raises _ _ _ Hline0). simpl.
      unfold bind, loader.logger, ret. rewrite IH. by rewrite <- app_assoc.
Qed.

(** X6.  An exception of [json.loads] that is neither a [JSONDecodeError]
    nor a [TypeError] or [KeyError] (a [RecursionError] on deeply nested
    JSON, say) is not a skipped line: it ends the load, which raises it and
    returns none of the passages prepared so far. *)
Theorem load_raises_other_decoder_errors file_path start stop lines
    before readings line e rest log :
  fs_open file_path = Return lines ->
  loader.islice lines start stop = before ++ line :: rest ->
  Forall2 (reads_as json_loads) before readings ->
  json_loads line = Raise e ->
  exc_type e <> JSONDecodeError -> exc_type e <> TypeError -> exc_type e <> KeyError ->
  exc_type e <> FileNotFoundError ->
  loader.load_and_prepare_documents json_loads fs_open file_path start stop log
  = (Raise e,
     log ++ [loading_message file_path start stop] ++ skip_warnings file_path start readings).
Proof.
  intros Hopen Hslice Hbefore Hline Hj Ht Hk Hf.
  unfold loader.load_and_prepare_documents, bind, loader.try_except, loader.lift,
    loader.logger, ret.
  rewrite Hopen, Hslice.
  rewrite (for_lines_aborts _ _ _ _ _ _ Hbefore (prepare_line_raises _ _ _ Hline) Hj Ht Hk).
  rewrite <- app_assoc. by destruct (exc_type e).
Qed.

End loader_more.

(** *** At the sample file system *)

Lemma load_log_counts_passages_and_skipped_lines_witness :
  exists documents warnings,
    loader.load_and_prepare_documents sample_json_loads_more sample_fs_open_more
      "data/batches.jsonl" 1 (Some 3%nat) []
    = (Return documents,
       [] ++ [loading_message "data/batches.jsonl" 1 (Some 3%nat)] ++ warnings
          ++ [(loader.INFO,
               "Successfully loaded and prepared " +:+ pretty (length documents) +:+
               " documents.")]) /\
    warnings = skip_warnings "data/batches.jsonl" 1 [NotJson; JsonObject null_title_items] /\
    (length documents + length warnings
     = length (loader.islice [line_record; line_garbage; line_null_title; line_record]
                 1 (Some 3%nat)))%nat.
Proof.
  apply (load_log_counts_passages_and_skipped_lines sample_json_loads_more
           sample_fs_open_more "data/batches.jsonl" 1 (Some 3%nat)
           [line_record; line_garbage; line_null_title; line_record]
           [NotJson; JsonObject null_title_items] []).
  - reflexivity.
  - repeat constructor. eexists. reflexivity.
Defined.

Example load_log_sample :
  snd (loader.load_and_prepare_documents sample_json_loads_more sample_fs_open_more
         "data/batches.jsonl" 1 (Some 3%nat) [])
  = [ (loader.INFO, "Loading documents from 'data/batches.jsonl' [lines 1-3]...");
      (loader.WARNING, "Skipping malformed JSON line 2 in 'data/batches.jsonl'.");
      (loader.INFO, "Successfully loaded and prepared 1 documents.") ].
Proof. vm_compute. reflexivity. Qed.

Lemma load_in_two_batches_witness :
  exists first second,
    fst (loader.load_and_prepare_documents sample_json_loads_more sample_fs_open_more
           "data/batches.jsonl" 0 (Some 2%nat) [])
    = Return first /\
    fst (loader.load_and_prepare_documents sample_json_loads_more sample_fs_open_more
           "data/batches.jsonl" 2 None [])
    = Return second /\
    fst (loader.load_and_prepare_documents sample_json_loads_more sample_fs_open_more
           "data/batches.jsonl" 0 None [])
    = Return (first ++ second).
Proof.
  apply (load_in_two_batches sample_json_loads_more sample_fs_open_more
           "data/batches.jsonl" 0 2 None
           [line_record; line_garbage; line_null_title; line_record]
           [JsonObject record_items; NotJson; JsonObject null_title_items;
            JsonObject record_items]).
  - lia.
  - discriminate.
  - reflexivity.
  - repeat constructor. eexists. reflexivity.
Defined.

Lemma load_raises_other_open_errors_witness :
  loader.load_and_prepare_documents sample_json_loads_more sample_fs_open_more
    "data/locked.jsonl" 0 None []
  = (Raise permission_error, [] ++ [loading_message "data/locked.jsonl" 0 None]).
Proof.
  apply (load_raises_other_open_errors sample_json_loads_more sample_fs_open_more
           "data/locked.jsonl" 0 None [] permission_error).
  - reflexivity.
  - discriminate.
Defined.

(** A [stop] of 0 reads nothing, and the opening record says [end]. *)
Lemma load_of_empty_range_witness :
  loader.load_and_prepare_documents sample_json_loads_more sample_fs_open_more
    "data/mixed.jsonl" 0 (Some 0%nat) []
  = (Return [],
     [] ++ [loading_message "data/mixed.jsonl" 0 (Some 0%nat);
            (loader.INFO, "Successfully loaded and prepared 0 documents.")]).
Proof.
  apply (load_of_empty_range sample_json_loads_more sample_fs_open_more
           "data/mixed.jsonl" 0 (Some 0%nat) [line_record; line_array; line_record] []).
  - reflexivity.
  - left. exists 0%nat. split; [reflexivity | lia].
Defined.

Lemma load_raises_other_decoder_errors_witness :
  loader.load_and_prepare_documents sample_json_loads_more sample_fs_open_more
    "data/deep.jsonl" 0 None []
  = (Raise recursion_error,
     [] ++ [loading_message "data/deep.jsonl" 0 None]
        ++ skip_warnings "data/deep.jsonl" 0 [JsonObject record_items; NotJson]).
Proof.
  apply (load_raises_other_decoder_errors sample_json_loads_more sample_fs_open_more
           "data/deep.jsonl" 0 None [line_record; line_garbage; line_deep; line_record]
           [line_record; line_garbage] [JsonObject record_items; NotJson] line_deep
           recursion_error [line_record] []).
  - reflexivity.
  - reflexivity.
  - repeat constructor. eexists. reflexivity.
  - reflexivity.
  - discriminate.
  - discriminate.
  - discriminate.
  - discriminate.
Defined.

(** ** More on the orchestrator *)

Section orchestrator_more.
Context {W : Type} (self : RAGPipeline.t W).
Implicit Types (question language : string) (s : RAGPipeline.state W).

Local Abbreviation k := (RAGPipeline.top_k self).

(** X7.  The calls of one [answer]: a retriever call with the caller's
    question and [top_k]; if it returns passages, a second retriever call
    with the same question and [top_k]; if that returns too, one call of the
    model, with the prompt built from the passages of the second call.
    Nothing else is called, and the model is never called before both
    retriever calls have returned. *)
Theorem answer_call_protocol question language s :
  let calls := events_of (RAGPipeline.answer self question language) s in
  (exists e, calls = [RetrieverInvoke question k (Raise e)]) \/
  calls = [RetrieverInvoke question k (Return [])] \/
  (exists docs e,
      docs <> [] /\
      calls = [RetrieverInvoke question k (Return docs);
               RetrieverInvoke question k (Raise e)]) \/
  (exists docs docs' result,
      docs <> [] /\
      calls = [RetrieverInvoke question k (Return docs);
               RetrieverInvoke question k (Return docs');
               LlmInvoke (format_template RAG_PROMPT_TEMPLATE
                            (chain_prompt_input question language
                               (RAGPipeline._format_context docs')))
                         result]).
Proof.
  intros calls. unfold calls, events_of.
  destruct (RAGPipeline.vector_store self question k (fst s)) as [[docs|e1] w1] eqn:H1.
  - destruct (decide (docs = [])) as [->|Hne].
    { right. left. rewrite (answer_no_documents self _ language s _ H1). simpl.
      by rewrite drop_app_length. }
    destruct (RAGPipeline.vector_store self question k w1) as [[docs'|e2] w2] eqn:H2.
    + destruct (RAGPipeline.llm self
                  (format_template RAG_PROMPT_TEMPLATE
                     (chain_prompt_input question language
                        (RAGPipeline._format_context docs')))
                  w2) as [result w3] eqn:H3.
      do 3 right. exists docs, docs', result. split; [done|].
      rewrite (answer_generates self _ language s _ _ _ _ _ _ Hne H1 H2 H3). simpl.
      by rewrite drop_app_length.
    + do 2 right. left. exists docs, e2. split; [done|].
      rewrite (answer_chain_retriever_raises self _ language s _ _ _ _ Hne H1 H2). simpl.
      by rewrite drop_app_length.
  - left. exists e1. rewrite (answer_retriever_raises self _ language s _ _ H1). simpl.
    by rewrite drop_app_length.
Qed.

(** X8.  The not-found answer is given for an empty first retrieval only.
    When the first retriever call returns passages and the second returns
    none, the model is still called, with a prompt whose context is empty,
    and [answer] returns the model's text unchanged together with the sources
    of the passages of the first call. *)
Theorem answer_with_empty_chain_retrieval question language s docs w1 w2 generated w3 :
  let p := format_template RAG_PROMPT_TEMPLATE
             (chain_prompt_input question language EmptyString) in
  docs <> [] ->
  RAGPipeline.vector_store self question k (fst s) = (Return docs, w1) ->
  RAGPipeline.vector_store self question k w1 = (Return [], w2) ->
  RAGPipeline.llm self p w2 = (Return generated, w3) ->
  RAGPipeline.answer self question language s
  = (Return {| answer := generated; sources := RAGPipeline._format_sources docs |},
     (w3, snd s ++ [RetrieverInvoke question k (Return docs);
                    RetrieverInvoke question k (Return []);
                    LlmInvoke p (Return generated)])).
Proof.
  intros p Hne H1 H2 H3.
  by rewrite (answer_generates self _ language s _ _ _ _ _ _ Hne H1 H2 H3).
Qed.

End orchestrator_more.

(** ** More on [_format_sources] and [_format_context] *)

Section formatting_more.
Implicit Types (docs : list Document) (d : Document).

Lemma _format_sources_step_extends (acc : list SourceDict * gset string) d :
  acc.1 `prefix_of` (RAGPipeline._format_sources_step acc d).1.
Proof.
  destruct acc as [srcs seen]. unfold RAGPipeline._format_sources_step.
  destruct (metadata d !! "source") as [u|]; [|done].
  destruct (bool_decide (u <> EmptyString) && bool_decide (u ∉ seen)); [|done].
  by apply prefix_app_r.
Qed.

Lemma _format_sources_foldl_extends (acc : list SourceDict * gset string) docs :
  acc.1 `prefix_of` (foldl RAGPipeline._format_sources_step acc docs).1.
Proof.
  revert acc. induction docs as [|d docs IH]; intros acc; [done|].
  simpl. etrans; [apply (_format_sources_step_extends acc d) | apply IH].
Qed.

(** X9.  Retrieving more passages only adds sources at the end: the sources
    of a list of passages are a prefix of the sources of any longer list that
    starts with it. *)
Theorem format_sources_of_more_passages docs more :
  RAGPipeline._format_sources docs `prefix_of` RAGPipeline._format_sources (docs ++ more).
Proof.
  unfold RAGPipeline._format_sources. rewrite foldl_app.
  apply _format_sources_foldl_extends.
Qed.

(** X10.  No passage is lost without need: when every passage bears a url
    and no two bear the same, the sources are one entry per passage, in
    order, with that passage's url and title. *)
Theorem format_sources_of_distinct_urls docs :
  Forall (fun d => exists u, bears d u) docs ->
  NoDup (map (fun d => metadata d !! "source") docs) ->
  RAGPipeline._format_sources docs = map entry_of docs.
Proof.
  unfold RAGPipeline._format_sources.
  induction docs as [|d docs IH] using rev_ind; intros Hbear Hnodup; [done|].
  apply Forall_app in Hbear as [Hbear Hd].
  apply Forall_singleton in Hd as (u & Hu & Hne).
  rewrite map_app in Hnodup. apply NoDup_app in Hnodup as (Hnodup & Hfresh & _).
  rewrite foldl_snoc, map_app.
  pose proof (_format_sources_invariant docs) as [Hseen _ _ _].
  specialize (IH Hbear Hnodup).
  destruct (foldl RAGPipeline._format_sources_step ([], ∅) docs) as [srcs seen] eqn:Hfold.
  simpl in IH, Hseen. subst srcs.
  unfold RAGPipeline._format_sources_step. rewrite Hu.
  rewrite (bool_decide_eq_true_2 _ Hne).
  assert (Hnew : u ∉ seen).
  { intros (d' & Hin & Hd' & _)%Hseen.
    apply (Hfresh (Some u)).
    - apply list_elem_of_fmap. exists d'. by rewrite Hd'.
    - simpl. rewrite Hu. apply list_elem_of_here. }
  rewrite (bool_decide_eq_true_2 _ Hnew). simpl.
  do 2 f_equal. unfold entry_of. by rewrite Hu.
Qed.

(** X11.  The sources depend on the [source] and the [title] of the passages
    only: passages that agree on these two, one by one, give the same
    sources, whatever their text and their other metadata. *)
Theorem format_sources_reads_source_and_title_only docs docs' :
  Forall2 (fun d d' => metadata d !! "source" = metadata d' !! "source" /\
                       metadata d !! "title" = metadata d' !! "title") docs docs' ->
  RAGPipeline._format_sources docs = RAGPipeline._format_sources docs'.
Proof.
  unfold RAGPipeline._format_sources. generalize (([], ∅) : list SourceDict * gset string).
  intros acc Hsame. revert acc.
  induction Hsame as [|d d' docs docs' [Hs Ht] _ IH]; intros acc; [done|].
  simpl. replace (RAGPipeline._format_sources_step acc d')
    with (RAGPipeline._format_sources_step acc d); [apply IH|].
  unfold RAGPipeline._format_sources_step. by rewrite Hs, Ht.
Qed.



End formatting_more.

(** ** More on the [/ask] handler *)

Section ask_more.
Context {W : Type} (self : RAGPipeline.t W).
Implicit Types (question language : string) (s : RAGPipeline.state W).

Local Abbreviation k := (RAGPipeline.top_k self).

(** The sources of a result of [answer] are none, or those of passages. *)
Lemma answer_result_sources question language s result s' :
  RAGPipeline.answer self question language s = (Return result, s') ->
  sources result = [] \/ exists docs, sources result = RAGPipeline._format_sources docs.
Proof.
  intros Hanswer.
  destruct (RAGPipeline.vector_store self question k (fst s)) as [[docs|e1] w1] eqn:H1.
  - destruct (decide (docs = [])) as [->|Hne].
    + rewrite (answer_no_documents self _ language s _ H1) in Hanswer.
      left. by injection Hanswer as <- _.
    + right. exists docs. by eapply answer_returns_sources.
  - by rewrite (answer_retriever_raises self _ language s _ _ H1) in Hanswer.
Qed.

Lemma _format_sources_urls docs :
  NoDup (map url (RAGPipeline._format_sources docs)) /\
  Forall (fun entry => url entry <> EmptyString) (RAGPipeline._format_sources docs).
Proof.
  destruct (_format_sources_invariant docs) as [Hseen Hurls Hnodup _].
  split; [done|]. apply Forall_forall. intros entry Hin.
  apply Hurls, Hseen in Hin as (d & _ & _ & Hne). done.
Qed.

(** X13.  Whatever the request and the services do, a response of [/ask]
    never lists a url twice and never lists an empty url. *)
Theorem ask_response_urls_are_distinct_and_not_empty (request : models.AskRequest) s
    response s' :
  ask request self s = (AskReturn response, s') ->
  NoDup (map models.url (models.sources response)) /\
  Forall (fun src => models.url src <> EmptyString) (models.sources response).
Proof.
  unfold ask.
  destruct (RAGPipeline.answer self (models.question request)
              (models.Language_value (models.language request)) s)
    as [[result|e] s1] eqn:Hanswer; [|done].
  intros [= <- _]. unfold AskResponse_of. simpl.
  rewrite map_map. simpl. rewrite Forall_map. simpl.
  apply answer_result_sources in Hanswer as [->|[docs ->]].
  - split; constructor.
  - apply _format_sources_urls.
Qed.

(** X14.  When the retriever returns no passage, [/ask] ends with a normal
    response (not with an HTTP error): the fixed sentence and an empty list
    of sources, after that single retriever call. *)
Theorem ask_not_found_is_a_response (request : models.AskRequest) s w1 :
  RAGPipeline.vector_store self (models.question request) k (fst s) = (Return [], w1) ->
  ask request self s
  = (AskReturn
       {| models.answer :=
            "Unfortunately, I could not find any relevant information in my knowledge base.";
          models.sources := [] |},
     (w1, snd s ++ [RetrieverInvoke (models.question request) k (Return [])])).
Proof.
  intros H1. unfold ask.
  by rewrite (answer_no_documents self _ _ s _ H1).
Qed.

End ask_more.

(** *** At the sample services *)

Lemma answer_with_empty_chain_retrieval_witness :
  RAGPipeline.answer vanishing_pipeline "abc" "Polish" (0%nat, [])
  = (Return {| answer := "generated text";
               sources := RAGPipeline._format_sources [doc_a; doc_b] |},
     (3%nat,
      [] ++ [RetrieverInvoke "abc" 5 (Return [doc_a; doc_b]);
             RetrieverInvoke "abc" 5 (Return []);
             LlmInvoke (format_template RAG_PROMPT_TEMPLATE
                          (chain_prompt_input "abc" "Polish" EmptyString))
                       (Return "generated text")])).
Proof.
  apply (answer_with_empty_chain_retrieval vanishing_pipeline "abc" "Polish" (0%nat, [])
           [doc_a; doc_b] 1%nat 2%nat "generated text" 3%nat).
  - discriminate.
  - reflexivity.
  - reflexivity.
  - reflexivity.
Defined.

Lemma format_sources_of_distinct_urls_witness :
  RAGPipeline._format_sources [doc_a; doc_b] = map entry_of [doc_a; doc_b].
Proof.
  apply (format_sources_of_distinct_urls [doc_a; doc_b]).
  - repeat constructor.
    + exists "https://u/a". split; [reflexivity | discriminate].
    + exists "https://u/b". split; [reflexivity | discriminate].
  - apply (bool_decide_unpack _). vm_compute. exact I.
Defined.

Lemma format_sources_reads_source_and_title_only_witness :
  RAGPipeline._format_sources [doc_a; doc_b]
  = RAGPipeline._format_sources [doc_a_reindexed; doc_b].
Proof.
  apply (format_sources_reads_source_and_title_only [doc_a; doc_b] [doc_a_reindexed; doc_b]).
  repeat constructor.
Defined.


Lemma ask_response_urls_are_distinct_and_not_empty_witness :
  NoDup (map models.url
           [ {| models.url := "https://u/a"; models.title := "A" |};
             {| models.url := "https://u/b"; models.title := "No Title" |} ]) /\
  Forall (fun src => models.url src <> EmptyString)
    [ {| models.url := "https://u/a"; models.title := "A" |};
      {| models.url := "https://u/b"; models.title := "No Title" |} ].
Proof.
  apply (ask_response_urls_are_distinct_and_not_empty steady_pipeline
           {| models.question := "abc"; models.language := models.English |} (0%nat, [])
           {| models.answer := "answer 2";
              models.sources :=
                [ {| models.url := "https://u/a"; models.title := "A" |};
                  {| models.url := "https://u/b"; models.title := "No Title" |} ] |}
           (snd (ask {| models.question := "abc"; models.language := models.English |}
                   steady_pipeline (0%nat, [])))).
  vm_compute. reflexivity.
Defined.

Lemma ask_not_found_is_a_response_witness :
  ask {| models.question := "abc"; models.language := models.Polish |} empty_pipeline
    (0%nat, [])
  = (AskReturn
       {| models.answer :=
            "Unfortunately, I could not find any relevant information in my knowledge base.";
          models.sources := [] |},
     (1%nat, [] ++ [RetrieverInvoke "abc" 5 (Return [])])).
Proof.
  apply (ask_not_found_is_a_response empty_pipeline
           {| models.question := "abc"; models.language := models.Polish |} (0%nat, [])
           1%nat).
  reflexivity.
Defined.

(** ** The providers of [dependencies.py] *)

Section providers_facts.
Context {D E W : Type} (ext : dependencies.externals D E W) (settings : config.Settings).
Implicit Types (s : dependencies.state D E W).

Local Abbreviation DB := (config.DB_PATH settings).
Local Abbreviation MODEL := (config.EMBEDDING_MODEL_NAME settings).

Local Ltac run_providers :=
  unfold dependencies.get_rag_pipeline, dependencies.get_llm, dependencies.get_vector_store,
    dependencies.get_embedding_model, dependencies.lru_cache, dependencies.logger,
    dependencies.external, bind, ret, raise; simpl.

(** X15.  The pipeline is assembled once: after a call of
    [get_rag_pipeline] that returns, a further call returns the same
    pipeline and changes nothing: no constructor is called again, nothing is
    logged. *)
Theorem get_rag_pipeline_is_memoized s pipeline s' :
  dependencies.get_rag_pipeline ext settings s = (Return pipeline, s') ->
  dependencies.get_rag_pipeline ext settings s' = (Return pipeline, s').
Proof.
  unfold dependencies.get_rag_pipeline, dependencies.lru_cache.
  destruct (dependencies.rag_pipeline s) as [cached|] eqn:Hcache.
  - intros [= <- <-]. by rewrite Hcache.
  - match goal with |- context [match ?body s with _ => _ end] => destruct (body s) as [[a|e] s1] end;
      [|done].
    by intros [= <- <-].
Qed.

(** X16.  A first call with everything in place: the language model is
    built first, then the directory of the database is checked, then the
    embedding model is loaded and the vector store opened on that directory
    with that embedding model.  The pipeline holds that language model and
    that vector store and asks for 5 passages; all four objects are cached. *)
Theorem get_rag_pipeline_cold_start s l d1 e d2 vs d3 :
  dependencies.rag_pipeline s = None -> dependencies.llm s = None ->
  dependencies.vector_store s = None -> dependencies.embedding_model s = None ->
  dependencies.ChatOpenAI ext "gpt-4o" (PyFloat "0.1") (dependencies.world s)
  = (Return l, d1) ->
  dependencies.path_exists ext DB d1 = true ->
  dependencies.HuggingFaceEmbeddings ext MODEL
    (PyDict [("device", PyStr "cpu")]) (PyDict [("normalize_embeddings", PyBool true)]) d1
  = (Return e, d2) ->
  dependencies.Chroma ext DB e d2 = (Return vs, d3) ->
  let pipeline :=
    {| RAGPipeline.llm := l; RAGPipeline.vector_store := vs; RAGPipeline.top_k := 5 |} in
  dependencies.get_rag_pipeline ext settings s
  = (Return pipeline,
     {| dependencies.world := d3;
        dependencies.log :=
          dependencies.log s
          ++ [ (loader.INFO, "Assembling the RAG pipeline...");
               (loader.INFO, "Initializing LLM (gpt-4o)...");
               (loader.INFO, "LLM initialized successfully.");
               (loader.INFO, "Connecting to vector store at: " +:+ DB);
               (loader.INFO, "Loading embedding model '" +:+ MODEL +:+ "'...");
               (loader.INFO, "Embedding model loaded successfully.");
               (loader.INFO, "Vector store connected successfully.");
               (loader.INFO, "RAG pipeline assembled successfully.") ];
        dependencies.calls :=
          dependencies.calls s
          ++ [ dependencies.NewChatOpenAI "gpt-4o" (PyFloat "0.1");
               dependencies.PathExists DB true;
               dependencies.NewHuggingFaceEmbeddings MODEL
                 (PyDict [("device", PyStr "cpu")])
                 (PyDict [("normalize_embeddings", PyBool true)]);
               dependencies.NewChroma DB ];
        dependencies.embedding_model := Some e;
        dependencies.vector_store := Some vs;
        dependencies.llm := Some l;
        dependencies.rag_pipeline := Some pipeline |}).
Proof.
  intros Hp Hl Hv He Hllm Hexists Hhf Hchroma pipeline.
  run_providers. rewrite Hp, Hl. simpl.
  unfold dependencies.TEMPERATURE. rewrite Hllm. simpl.
  rewrite Hv, Hexists. simpl. rewrite He.
  unfold dependencies.DEVICE_CPU, dependencies.NORMALIZE. rewrite Hhf. simpl.
  rewrite Hchroma. simpl.
  unfold dependencies.store_rag_pipeline, RAGPipeline.__init__. simpl.
  by rewrite <- !app_assoc.
Qed.

(** X17.  A first call while the directory of the vector database is
    missing raises [FileNotFoundError] with the message that names the
    directory and the indexing script.  By then the language model has been
    built and stays cached; the embedding model is not loaded; neither the
    vector store nor the pipeline is cached, so a later call tries again. *)
Theorem get_rag_pipeline_without_database s l d1 :
  dependencies.rag_pipeline s = None -> dependencies.llm s = None ->
  dependencies.vector_store s = None ->
  dependencies.ChatOpenAI ext "gpt-4o" (PyFloat "0.1") (dependencies.world s)
  = (Return l, d1) ->
  dependencies.path_exists ext DB d1 = false ->
  let message :=
    "Vector database not found at '" +:+ DB +:+ "'. " +:+
    "Please run the indexing script first: `python scripts/build_index.py`" in
  dependencies.get_rag_pipeline ext settings s
  = (Raise (Exc FileNotFoundError message),
     {| dependencies.world := d1;
        dependencies.log :=
          dependencies.log s
          ++ [ (loader.INFO, "Assembling the RAG pipeline...");
               (loader.INFO, "Initializing LLM (gpt-4o)...");
               (loader.INFO, "LLM initialized successfully.");
               (loader.INFO, "Connecting to vector store at: " +:+ DB);
               (loader.ERROR, message) ];
        dependencies.calls :=
          dependencies.calls s
          ++ [ dependencies.NewChatOpenAI "gpt-4o" (PyFloat "0.1");
               dependencies.PathExists DB false ];
        dependencies.embedding_model := dependencies.embedding_model s;
        dependencies.vector_store := None;
        dependencies.llm := Some l;
        dependencies.rag_pipeline := None |}).
Proof.
  intros Hp Hl Hv Hllm Hexists message.
  run_providers. rewrite Hp, Hl. simpl.
  unfold dependencies.TEMPERATURE. rewrite Hllm. simpl.
  rewrite Hv, Hexists. simpl.
  unfold dependencies.DB_NOT_FOUND. fold message.
  by rewrite <- !app_assoc.
Qed.

(** X18.  A call after such a failure, once the directory exists, uses the
    language model that is cached and does not build another: it checks the
    directory, loads the embedding model, opens the vector store, and returns
    the pipeline made of the cached language model and the new vector
    store. *)
Theorem get_rag_pipeline_reuses_cached_llm s l e d1 vs d2 :
  dependencies.rag_pipeline s = None -> dependencies.llm s = Some l ->
  dependencies.vector_store s = None -> dependencies.embedding_model s = None ->
  dependencies.path_exists ext DB (dependencies.world s) = true ->
  dependencies.HuggingFaceEmbeddings ext MODEL
    (PyDict [("device", PyStr "cpu")]) (PyDict [("normalize_embeddings", PyBool true)])
    (dependencies.world s)
  = (Return e, d1) ->
  dependencies.Chroma ext DB e d1 = (Return vs, d2) ->
  exists s',
    dependencies.get_rag_pipeline ext settings s
    = (Return {| RAGPipeline.llm := l; RAGPipeline.vector_store := vs;
                 RAGPipeline.top_k := 5 |}, s') /\
    dependencies.calls s'
    = dependencies.calls s
      ++ [ dependencies.PathExists DB true;
           dependencies.NewHuggingFaceEmbeddings MODEL
             (PyDict [("device", PyStr "cpu")])
             (PyDict [("normalize_embeddings", PyBool true)]);
           dependencies.NewChroma DB ] /\
    dependencies.llm s' = Some l.
Proof.
  intros Hp Hl Hv He Hexists Hhf Hchroma.
  eexists. run_providers. rewrite Hp, Hl. simpl.
  rewrite Hv, Hexists. simpl. rewrite He.
  unfold dependencies.DEVICE_CPU, dependencies.NORMALIZE. rewrite Hhf. simpl.
  rewrite Hchroma. simpl.
  split_and!; [reflexivity| |done]. simpl. by rewrite <- !app_assoc.
Qed.

(** X19.  When the language model cannot be built, [get_rag_pipeline]
    raises what its constructor raised, before the directory of the database
    is looked at and before any embedding model is loaded; nothing is
    cached, so the next call builds the language model anew. *)
Theorem get_rag_pipeline_when_the_llm_cannot_be_built s e d1 :
  dependencies.rag_pipeline s = None -> dependencies.llm s = None ->
  dependencies.ChatOpenAI ext "gpt-4o" (PyFloat "0.1") (dependencies.world s)
  = (Raise e, d1) ->
  dependencies.get_rag_pipeline ext settings s
  = (Raise e,
     {| dependencies.world := d1;
        dependencies.log :=
          dependencies.log s
          ++ [ (loader.INFO, "Assembling the RAG pipeline...");
               (loader.INFO, "Initializing LLM (gpt-4o)...") ];
        dependencies.calls :=
          dependencies.calls s ++ [ dependencies.NewChatOpenAI "gpt-4o" (PyFloat "0.1") ];
        dependencies.embedding_model := dependencies.embedding_model s;
        dependencies.vector_store := dependencies.vector_store s;
        dependencies.llm := None;
        dependencies.rag_pipeline := None |}).
Proof.
  intros Hp Hl Hllm.
  run_providers. rewrite Hp, Hl. simpl.
  unfold dependencies.TEMPERATURE. rewrite Hllm. simpl.
  by rewrite <- !app_assoc.
Qed.

End providers_facts.

(** *** At the sample libraries *)

Lemma get_rag_pipeline_is_memoized_witness :
  dependencies.get_rag_pipeline sample_externals sample_settings
    (snd (dependencies.get_rag_pipeline sample_externals sample_settings (fresh_state true)))
  = (Return (RAGPipeline.__init__ (RAGPipeline.llm steady_pipeline)
               (RAGPipeline.vector_store steady_pipeline) None),
     snd (dependencies.get_rag_pipeline sample_externals sample_settings (fresh_state true))).
Proof.
  apply (get_rag_pipeline_is_memoized sample_externals sample_settings (fresh_state true)).
  vm_compute. reflexivity.
Defined.

Lemma get_rag_pipeline_cold_start_witness :
  dependencies.get_rag_pipeline sample_externals sample_settings (fresh_state true)
  = (Return {| RAGPipeline.llm := RAGPipeline.llm steady_pipeline;
               RAGPipeline.vector_store := RAGPipeline.vector_store steady_pipeline;
               RAGPipeline.top_k := 5 |},
     {| dependencies.world := true;
        dependencies.log :=
          []
          ++ [ (loader.INFO, "Assembling the RAG pipeline...");
               (loader.INFO, "Initializing LLM (gpt-4o)...");
               (loader.INFO, "LLM initialized successfully.");
               (loader.INFO, "Connecting to vector store at: " +:+ "/app/vector_db");
               (loader.INFO,
                "Loading embedding model '" +:+ "intfloat/multilingual-e5-large" +:+ "'...");
               (loader.INFO, "Embedding model loaded successfully.");
               (loader.INFO, "Vector store connected successfully.");
               (loader.INFO, "RAG pipeline assembled successfully.") ];
        dependencies.calls :=
          []
          ++ [ dependencies.NewChatOpenAI "gpt-4o" (PyFloat "0.1");
               dependencies.PathExists "/app/vector_db" true;
               dependencies.NewHuggingFaceEmbeddings "intfloat/multilingual-e5-large"
                 (PyDict [("device", PyStr "cpu")])
                 (PyDict [("normalize_embeddings", PyBool true)]);
               dependencies.NewChroma "/app/vector_db" ];
        dependencies.embedding_model := Some "intfloat/multilingual-e5-large";
        dependencies.vector_store := Some (RAGPipeline.vector_store steady_pipeline);
        dependencies.llm := Some (RAGPipeline.llm steady_pipeline);
        dependencies.rag_pipeline :=
          Some {| RAGPipeline.llm := RAGPipeline.llm steady_pipeline;
                  RAGPipeline.vector_store := RAGPipeline.vector_store steady_pipeline;
                  RAGPipeline.top_k := 5 |} |}).
Proof.
  apply (get_rag_pipeline_cold_start sample_externals sample_settings (fresh_state true)
           (RAGPipeline.llm steady_pipeline) true "intfloat/multilingual-e5-large" true
           (RAGPipeline.vector_store steady_pipeline) true); reflexivity.
Defined.

Lemma get_rag_pipeline_without_database_witness :
  dependencies.get_rag_pipeline sample_externals sample_settings (fresh_state false)
  = (Raise (Exc FileNotFoundError
              ("Vector database not found at '" +:+ "/app/vector_db" +:+ "'. " +:+
               "Please run the indexing script first: `python scripts/build_index.py`")),
     {| dependencies.world := false;
        dependencies.log :=
          []
          ++ [ (loader.INFO, "Assembling the RAG pipeline...");
               (loader.INFO, "Initializing LLM (gpt-4o)...");
               (loader.INFO, "LLM initialized successfully.");
               (loader.INFO, "Connecting to vector store at: " +:+ "/app/vector_db");
               (loader.ERROR,
                "Vector database not found at '" +:+ "/app/vector_db" +:+ "'. " +:+
                "Please run the indexing script first: `python scripts/build_index.py`") ];
        dependencies.calls :=
          []
          ++ [ dependencies.NewChatOpenAI "gpt-4o" (PyFloat "0.1");
               dependencies.PathExists "/app/vector_db" false ];
        dependencies.embedding_model := None;
        dependencies.vector_store := None;
        dependencies.llm := Some (RAGPipeline.llm steady_pipeline);
        dependencies.rag_pipeline := None |}).
Proof.
  apply (get_rag_pipeline_without_database sample_externals sample_settings
           (fresh_state false) (RAGPipeline.llm steady_pipeline) false); reflexivity.
Defined.

(** The state that the failed call above leaves, with the directory now in
    place. *)
Lemma get_rag_pipeline_reuses_cached_llm_witness :
  exists s',
    dependencies.get_rag_pipeline sample_externals sample_settings
      {| dependencies.world := true;
         dependencies.log := [];
         dependencies.calls := [dependencies.NewChatOpenAI "gpt-4o" (PyFloat "0.1");
                                dependencies.PathExists "/app/vector_db" false];
         dependencies.embedding_model := None;
         dependencies.vector_store := None;
         dependencies.llm := Some (RAGPipeline.llm steady_pipeline);
         dependencies.rag_pipeline := None |}
    = (Return {| RAGPipeline.llm := RAGPipeline.llm steady_pipeline;
                 RAGPipeline.vector_store := RAGPipeline.vector_store steady_pipeline;
                 RAGPipeline.top_k := 5 |}, s') /\
    dependencies.calls s'
    = [dependencies.NewChatOpenAI "gpt-4o" (PyFloat "0.1");
       dependencies.PathExists "/app/vector_db" false]
      ++ [ dependencies.PathExists "/app/vector_db" true;
           dependencies.NewHuggingFaceEmbeddings "intfloat/multilingual-e5-large"
             (PyDict [("device", PyStr "cpu")])
             (PyDict [("normalize_embeddings", PyBool true)]);
           dependencies.NewChroma "/app/vector_db" ] /\
    dependencies.llm s' = Some (RAGPipeline.llm steady_pipeline).
Proof.
  apply (get_rag_pipeline_reuses_cached_llm sample_externals sample_settings
           {| dependencies.world := true;
              dependencies.log := [];
              dependencies.calls := [dependencies.NewChatOpenAI "gpt-4o" (PyFloat "0.1");
                                     dependencies.PathExists "/app/vector_db" false];
              dependencies.embedding_model := None;
              dependencies.vector_store := None;
              dependencies.llm := Some (RAGPipeline.llm steady_pipeline);
              dependencies.rag_pipeline := None |}
           (RAGPipeline.llm steady_pipeline) "intfloat/multilingual-e5-large" true
           (RAGPipeline.vector_store steady_pipeline) true); reflexivity.
Defined.

Lemma get_rag_pipeline_when_the_llm_cannot_be_built_witness :
  dependencies.get_rag_pipeline sample_externals_without_llm sample_settings
    (fresh_state true)
  = (Raise openai_error,
     {| dependencies.world := true;
        dependencies.log :=
          []
          ++ [ (loader.INFO, "Assembling the RAG pipeline...");
               (loader.INFO, "Initializing LLM (gpt-4o)...") ];
        dependencies.calls := [] ++ [ dependencies.NewChatOpenAI "gpt-4o" (PyFloat "0.1") ];
        dependencies.embedding_model := None;
        dependencies.vector_store := None;
        dependencies.llm := None;
        dependencies.rag_pipeline := None |}).
Proof.
  apply (get_rag_pipeline_when_the_llm_cannot_be_built sample_externals_without_llm
           sample_settings (fresh_state true) openai_error true); reflexivity.
Defined.

(** ** The API key validator of [config.py] *)

Section strip_facts.
Implicit Types (cs : list N) (c : N).

Lemma lstrip_nil cs : lstrip cs = [] <-> Forall (fun c => py_isspace c = true) cs.
Proof.
  induction cs as [|c cs IH]; simpl; [by split; [constructor|]|].
  destruct (py_isspace c) eqn:Hc.
  - rewrite IH. split; [by constructor | by inversion 1].
  - split; [done|]. inversion 1; congruence.
Qed.

Lemma lstrip_spaces cs :
  Forall (fun c => py_isspace c = true) (lstrip cs) ->
  Forall (fun c => py_isspace c = true) cs.
Proof.
  induction cs as [|c cs IH]; simpl; [done|].
  destruct (py_isspace c) eqn:Hc; [|done].
  intros H. constructor; [done | by apply IH].
Qed.

(** Stripping leaves nothing exactly when every character is white space. *)
Lemma py_strip_nil cs : py_strip cs = [] <-> Forall (fun c => py_isspace c = true) cs.
Proof.
  unfold py_strip. split.
  - intros H. apply (f_equal reverse) in H. rewrite reverse_involutive, reverse_nil in H.
    apply lstrip_nil in H. rewrite Forall_reverse in H. by apply lstrip_spaces.
  - intros H. apply lstrip_nil in H. rewrite H. done.
Qed.

Lemma spaces_or_not cs :
  Forall (fun c => py_isspace c = true) cs \/ Exists (fun c => py_isspace c = false) cs.
Proof.
  induction cs as [|c cs [IH|IH]].
  - left. constructor.
  - destruct (py_isspace c) eqn:Hc.
    + left. by constructor.
    + right. by constructor.
  - right. by constructor.
Qed.

End strip_facts.

(** X20.  The validator of [OPENAI_API_KEY] refuses, with a [ValueError]
    that names the variable, a key that is absent and a key that holds white
    space only (the empty key too); every other key is accepted and returned
    exactly as given, blanks around it included. *)
Theorem api_key_is_refused_when_absent_or_blank (v : option string) :
  match config.validate_api_key_is_present v with
  | Return key =>
      v = Some key /\ Exists (fun c => py_isspace c = false) (code_points key)
  | Raise e =>
      e = Exc (OtherException "ValueError")
            ("OPENAI_API_KEY is not set in the .env file or environment variables. " +:+
             "It is required to run the application.") /\
      (v = None \/
       exists key, v = Some key /\ Forall (fun c => py_isspace c = true) (code_points key))
  end.
Proof.
  destruct v as [key|]; simpl; [|by split; [|left]].
  case_bool_decide as Hstrip.
  - split; [done|]. right. exists key. split; [done|]. by apply py_strip_nil.
  - split; [done|].
    destruct (spaces_or_not (code_points key)) as [Hall|Hsome]; [|done].
    by destruct Hstrip; apply py_strip_nil.
Qed.

Example api_key_samples :
  config.validate_api_key_is_present (Some (" sk-sample" +:+ NL)) = Return (" sk-sample" +:+ NL)
  /\ config.validate_api_key_is_present (Some (" " +:+ chr 9 +:+ chr 194 +:+ chr 160 +:+ NL))
     = Raise (Exc (OtherException "ValueError") config.API_KEY_MISSING)
  /\ config.validate_api_key_is_present (Some EmptyString)
     = Raise (Exc (OtherException "ValueError") config.API_KEY_MISSING).
Proof. vm_compute. done. Qed.

(** ** The boundary of [/ask] *)

Section boundary.
Context {D E W : Type} (ext : dependencies.externals D E W) (settings : config.Settings).
Implicit Types (d : dependencies.state D E W) (s : RAGPipeline.state W).

(** X21.  A body whose question has fewer than 3 or more than 500
    characters never reaches the handler: no retriever call and no model
    call is made.  The pipeline provider runs before the body is checked, so
    the answer is 422, with the error at the question, when
    [get_rag_pipeline] returns, and 500 when it raises. *)
Theorem question_out_of_range_never_reaches_the_pipeline
    (items : list (string * pyval)) (q : string) d s :
  dict_get "question" items = Some (PyStr q) ->
  (py_len q < 3 \/ 500 < py_len q)%nat ->
  post_ask ext settings (PyDict items) (d, s)
  = match dependencies.get_rag_pipeline ext settings d with
    | (Return _, d') =>
        (Http422
           ((["body"; "question"],
             if (py_len q <? 3)%nat then "string_too_short" else "string_too_long")
            :: errors_of (validate_language items)),
         (d', s))
    | (Raise _, d') => (HttpError 500 "Internal Server Error", (d', s))
    end.
Proof.
  intros Hq Hlen. unfold post_ask.
  destruct (dependencies.get_rag_pipeline ext settings d) as [[pipeline|e] d']; [|done].
  unfold AskRequest_validate, validate_question. rewrite Hq.
  destruct (py_len q <? 3)%nat eqn:Hshort.
  - by destruct (validate_language items).
  - apply Nat.ltb_ge in Hshort.
    assert (Hlong : (500 <? py_len q)%nat = true) by (apply Nat.ltb_lt; lia).
    rewrite Hlong.
    by destruct (validate_language items).
Qed.

End boundary.

(** *** At the sample services *)

Example two_letters_len : py_len two_letters = 2%nat /\ String.length two_letters = 4%nat.
Proof. vm_compute. done. Qed.

Lemma question_out_of_range_never_reaches_the_pipeline_witness :
  post_ask sample_externals sample_settings
    (PyDict [("question", PyStr two_letters); ("language", PyStr "English")])
    (fresh_state true, (0%nat, []))
  = match dependencies.get_rag_pipeline sample_externals sample_settings (fresh_state true)
    with
    | (Return _, d') =>
        (Http422
           ((["body"; "question"],
             if (py_len two_letters <? 3)%nat then "string_too_short" else "string_too_long")
            :: errors_of (validate_language
                            [("question", PyStr two_letters);
                             ("language", PyStr "English")])),
         (d', (0%nat, [])))
    | (Raise _, d') => (HttpError 500 "Internal Server Error", (d', (0%nat, [])))
    end.
Proof.
  apply (question_out_of_range_never_reaches_the_pipeline sample_externals sample_settings
           [("question", PyStr two_letters); ("language", PyStr "English")] two_letters
           (fresh_state true) (0%nat, [])).
  - reflexivity.
  - left. vm_compute. lia.
Defined.

(** The same body with the database in place, and with the database
    missing. *)
Example short_question_responses :
  fst (post_ask sample_externals sample_settings
         (PyDict [("question", PyStr two_letters); ("language", PyStr "English")])
         (fresh_state true, (0%nat, [])))
  = Http422 [(["body"; "question"], "string_too_short")]
  /\ fst (post_ask sample_externals sample_settings
            (PyDict [("question", PyStr two_letters); ("language", PyStr "English")])
            (fresh_state false, (0%nat, [])))
     = HttpError 500 "Internal Server Error".
Proof. vm_compute. done. Qed.
